(** * go-scrape: a shallow embedding of the scraping server

    The development follows the layout of the repository:

    - [Go]: the few pieces of the Go runtime and standard library the
      program relies on (strings, [strings.TrimSpace], [errors.New],
      [strings.Builder]);
    - [Html]: the node tree of [golang.org/x/net/html];
    - [Http], [Wire]: requests, the [http.ResponseWriter], [http.Error]
      and the JSON wire types of [main.go];
    - [Env]: the outside world (network, parsers) as a record of oracles,
      and the trace of observable events;
    - [DomScraper]: the manual DOM-traversal [ExtractTextFromURL] with
      [extractTextFromHTML] and [isIgnorable];
    - [ReadabilityScraper]: [scraper/text.go];
    - [Server]: [main.go], the [/scrape] handler;
    - [Spec]: the properties the written specification asks for, stated
      over the embedding so that they can be compared with the code;
    - [Samples]: concrete documents, requests and worlds. *)

From Stdlib Require Import NArith ZArith String Ascii Bool Lia.
From Stdlib Require Import DecimalString.
From Stdlib Require Import List.
Import ListNotations.

Set Implicit Arguments.

(* ===================================================================== *)
(** ** Go strings and the library functions used by the program          *)
(* ===================================================================== *)

Module Go.

(** A Go string holds UTF-8 text; it is modelled by the sequence of its
    code points, the view [unicode.IsSpace] and [strings.TrimSpace]
    take of it. *)
Definition rune := N.
Definition gostring := list rune.

Definition str (s : string) : gostring :=
  map N_of_ascii (list_ascii_of_string s).

Definition rune_eqb : rune -> rune -> bool := N.eqb.

Fixpoint string_eqb (s t : gostring) : bool :=
  match s, t with
  | [], [] => true
  | a :: s', b :: t' => rune_eqb a b && string_eqb s' t'
  | _, _ => false
  end.

(** [utf8.RuneLen] on the code points of well-formed text. *)
Definition RuneLen (r : rune) : Z :=
  if (r <? 128)%N then 1
  else if (r <? 2048)%N then 2
  else if (r <? 65536)%N then 3
  else 4.

(** The builtin [len] of a string: its length in bytes. *)
Fixpoint len (s : gostring) : Z :=
  match s with
  | [] => 0
  | r :: s' => RuneLen r + len s'
  end.

(** [unicode.IsSpace]: the Latin-1 cases are listed, the others come
    from the White_Space table. *)
Definition IsSpace (r : rune) : bool :=
  if (r <=? 255)%N then
    match r with
    | 9%N | 10%N | 11%N | 12%N | 13%N | 32%N | 133%N | 160%N => true
    | _ => false
    end
  else
    (r =? 5760)%N
    || ((8192 <=? r) && (r <=? 8202))%N
    || (r =? 8232)%N || (r =? 8233)%N
    || (r =? 8239)%N || (r =? 8287)%N || (r =? 12288)%N.

(** [strings.TrimLeftFunc], [TrimRightFunc], [TrimFunc], [TrimSpace]. *)
Fixpoint TrimLeftFunc (f : rune -> bool) (s : gostring) : gostring :=
  match s with
  | [] => []
  | r :: s' => if f r then TrimLeftFunc f s' else s
  end.

Definition TrimRightFunc (f : rune -> bool) (s : gostring) : gostring :=
  rev (TrimLeftFunc f (rev s)).

Definition TrimFunc (f : rune -> bool) (s : gostring) : gostring :=
  TrimRightFunc f (TrimLeftFunc f s).

Definition TrimSpace (s : gostring) : gostring := TrimFunc IsSpace s.

(** [strings.HasPrefix], [strings.Contains], [strings.Join],
    [strconv.Itoa]. *)
Fixpoint HasPrefix (s prefix : gostring) : bool :=
  match prefix, s with
  | [], _ => true
  | p :: prefix', c :: s' => rune_eqb c p && HasPrefix s' prefix'
  | _ :: _, [] => false
  end.

Fixpoint Contains (s substr : gostring) : bool :=
  HasPrefix s substr
  || match s with
     | [] => false
     | _ :: s' => Contains s' substr
     end.

Fixpoint Join (elems : list gostring) (sep : gostring) : gostring :=
  match elems with
  | [] => []
  | [x] => x
  | x :: rest => x ++ sep ++ Join rest sep
  end.

Definition Itoa (i : Z) : gostring :=
  str (NilZero.string_of_int (Z.to_int i)).

(** [strings.Builder]: only [WriteString] and [String] are used. *)
Definition Builder := gostring.
Definition newBuilder : Builder := [].
Definition WriteString (b : Builder) (s : gostring) : Builder := b ++ s.
Definition String (b : Builder) : gostring := b.

(** The [error] interface, observed through its [Error()] method. *)
Inductive error := errors_New (msg : gostring).
Definition Error (e : error) : gostring :=
  match e with errors_New msg => msg end.

End Go.
Import Go.

(* ===================================================================== *)
(** ** golang.org/x/net/html: the node tree                               *)
(* ===================================================================== *)

Module Html.

Inductive NodeType :=
| ErrorNode | TextNode | DocumentNode | ElementNode
| CommentNode | DoctypeNode | RawNode.

Definition NodeType_eqb (a b : NodeType) : bool :=
  match a, b with
  | ErrorNode, ErrorNode | TextNode, TextNode
  | DocumentNode, DocumentNode | ElementNode, ElementNode
  | CommentNode, CommentNode | DoctypeNode, DoctypeNode
  | RawNode, RawNode => true
  | _, _ => false
  end.

(** [html.Node]: the sibling chain [FirstChild]/[NextSibling] is the list
    [Children]; [Parent] is not stored, a traversal carries it along. *)
#[warnings="-register-all"]
Inductive Node := mkNode {
  Type_ : NodeType;
  Data : gostring;
  Children : list Node
}.

Definition text (s : string) : Node := mkNode TextNode (str s) [].
Definition elem (tag : string) (cs : list Node) : Node :=
  mkNode ElementNode (str tag) cs.
Definition document (cs : list Node) : Node := mkNode DocumentNode [] cs.

(** Induction on a tree, with the hypothesis for every child. *)
Fixpoint Node_induction (P : Node -> Prop)
    (step : forall ty d cs, Forall P cs -> P (mkNode ty d cs))
    (n : Node) {struct n} : P n :=
  match n with
  | mkNode ty d cs =>
      step ty d cs
        ((fix children (l : list Node) : Forall P l :=
            match l with
            | [] => Forall_nil P
            | c :: l' => Forall_cons c (Node_induction step c) (children l')
            end) cs)
  end.

(** [parent_of p c root]: [c] is a child of [p] somewhere in the tree
    under [root], that is, [c.Parent == p]. *)
Inductive parent_of (p c : Node) : Node -> Prop :=
| parent_here : In c (Children p) -> parent_of p c p
| parent_below root k :
    In k (Children root) -> parent_of p c k -> parent_of p c root.

(** [inside a n]: the node [n] lies in the subtree rooted at [a], at
    any depth below it. *)
Inductive inside (a : Node) : Node -> Prop :=
| inside_child c : In c (Children a) -> inside a c
| inside_deeper k c : inside a k -> In c (Children k) -> inside a c.

End Html.
Import Html.

(* ===================================================================== *)
(** ** net/http and encoding/json, as far as the handler uses them       *)
(* ===================================================================== *)

Module Http.

Definition MethodPost : gostring := str "POST".
Definition StatusOK : Z := 200.
Definition StatusBadRequest : Z := 400.
Definition StatusMethodNotAllowed : Z := 405.
Definition StatusInternalServerError : Z := 500.

(** [time.Second], in nanoseconds. *)
Definition Second : Z := 1000000000.

(** [http.Client]; a zero [Timeout] means no timeout. *)
Record Client := { Timeout : Z }.
Definition DefaultClient : Client := {| Timeout := 0 |}.

(** [http.Response], with the body already read. *)
Record Response := { StatusCode : Z; Body : gostring }.

(** [http.Request]. *)
Record Request := { Method : gostring; ReqBody : gostring }.

(** JSON values, as far as responses need them. *)
#[warnings="-register-all"]
Inductive JSON :=
| JNull
| JBool (b : bool)
| JString (s : gostring)
| JObject (fields : list (gostring * JSON)).

Fixpoint assoc {A} (k : gostring) (l : list (gostring * A)) : option A :=
  match l with
  | [] => None
  | (k', v) :: l' => if string_eqb k k' then Some v else assoc k l'
  end.

Definition field (k : string) (v : JSON) : option JSON :=
  match v with
  | JObject fields => assoc (str k) fields
  | _ => None
  end.

(** What a handler writes to the connection: raw text, or a value
    passed through [json.Encoder.Encode]. *)
Inductive Payload :=
| Text (s : gostring)
| Json (v : JSON).

(** [http.ResponseWriter]: the header map, the status line once it is
    written, and the payloads written so far. *)
Record ResponseWriter := {
  Header : list (gostring * gostring);
  Status : option Z;
  Written : list Payload
}.

Definition newResponseWriter : ResponseWriter :=
  {| Header := []; Status := None; Written := [] |}.

Definition header_Del (k : gostring) (h : list (gostring * gostring)) :=
  filter (fun kv => negb (string_eqb (fst kv) k)) h.
Definition header_Set (k v : gostring) (h : list (gostring * gostring)) :=
  (k, v) :: header_Del k h.
Definition header_Get (k : gostring) (h : list (gostring * gostring)) :=
  assoc k h.

Definition SetHeader (w : ResponseWriter) (k v : string) : ResponseWriter :=
  {| Header := header_Set (str k) (str v) (Header w);
     Status := Status w; Written := Written w |}.
Definition DelHeader (w : ResponseWriter) (k : string) : ResponseWriter :=
  {| Header := header_Del (str k) (Header w);
     Status := Status w; Written := Written w |}.

(** [WriteHeader]: only the first call sets the status. *)
Definition WriteHeader (w : ResponseWriter) (code : Z) : ResponseWriter :=
  match Status w with
  | Some _ => w
  | None => {| Header := Header w; Status := Some code; Written := Written w |}
  end.

(** [Write]: an implicit [WriteHeader(200)] comes first. *)
Definition Write (w : ResponseWriter) (p : Payload) : ResponseWriter :=
  let w1 := WriteHeader w StatusOK in
  {| Header := Header w1; Status := Status w1; Written := Written w1 ++ [p] |}.

(** [http.Error]. *)
Definition Error_ (w : ResponseWriter) (error : gostring) (code : Z)
  : ResponseWriter :=
  let w1 := DelHeader w "Content-Length" in
  let w2 := SetHeader w1 "Content-Type" "text/plain; charset=utf-8" in
  let w3 := SetHeader w2 "X-Content-Type-Options" "nosniff" in
  let w4 := WriteHeader w3 code in
  Write w4 (Text (error ++ str (String.String "010"%char EmptyString))).

End Http.
Import Http.

(* ===================================================================== *)
(** ** main.go: the wire types                                            *)
(* ===================================================================== *)

Module Wire.

(** [type scrapeRequest struct { URL string `json:url` }] *)
Record scrapeRequest := { URL : gostring }.

(** [type scrapeResponse struct { Content string `json:content` }] *)
Record scrapeResponse := { Content : gostring }.

(** The value [json.Encoder.Encode] produces for a [scrapeResponse]. *)
Definition Marshal (v : scrapeResponse) : JSON :=
  JObject [(str "content", JString (Content v))].

Definition Encode (w : ResponseWriter) (v : scrapeResponse) : ResponseWriter :=
  Write w (Json (Marshal v)).

End Wire.
Import Wire.

(* ===================================================================== *)
(** ** The outside world and the events a run leaves behind              *)
(* ===================================================================== *)

Module Env.

(** Results of library calls that return [(T, error)]. *)
Inductive result (A : Type) :=
| Ok (a : A)
| Fail (e : error).
Arguments Ok {A} a.
Arguments Fail {A} e.

(** [*url.URL] and [readability.Article]. *)
Record ParsedURL := { Raw : gostring }.
Record Article := { TextContent : gostring }.

(** What lies outside the repository: the network and the parsers of
    the imported packages. *)
Record World := {
  client_Get : Client -> gostring -> result Response;
  url_Parse : gostring -> result ParsedURL;
  readability_FromReader : gostring -> ParsedURL -> result Article;
  html_Parse : gostring -> result Node;
  json_Decode : gostring -> result scrapeRequest
}.

(** Observable events, in the order they happen:
    - [EvExtract u]: the handler calls [scraper.ExtractTextFromURL(u)];
    - [EvGet c u]: a scraper calls [Get(u)] on the client [c];
    - [EvClose u]: the deferred [resp.Body.Close()] runs;
    - [EvHeadless u]: a headless rendering of [u] is started.  The
      specification speaks of it; no function of the repository emits it. *)
Inductive Event :=
| EvExtract (u : gostring)
| EvGet (c : Client) (u : gostring)
| EvClose (u : gostring)
| EvHeadless (u : gostring).

Definition is_headless (e : Event) : bool :=
  match e with EvHeadless _ => true | _ => false end.
Definition is_fetch (e : Event) : bool :=
  match e with EvGet _ _ => true | _ => false end.
Definition is_extract (e : Event) : bool :=
  match e with EvExtract _ => true | _ => false end.

(** Computations that log events. *)
Definition Eff (A : Type) : Type := A * list Event.

Definition ret {A} (a : A) : Eff A := (a, []).
Definition bind {A B} (m : Eff A) (k : A -> Eff B) : Eff B :=
  let '(a, t1) := m in
  let '(b, t2) := k a in
  (b, t1 ++ t2).
Definition emit (e : Event) : Eff unit := (tt, [e]).

Definition value {A} (m : Eff A) : A := fst m.
Definition trace {A} (m : Eff A) : list Event := snd m.

(** [defer f()]: the deferred call runs when the function returns. *)
Definition defer {A} (e : Event) (body : Eff A) : Eff A :=
  bind body (fun a => bind (emit e) (fun _ => ret a)).

End Env.
Import Env.

Declare Scope eff_scope.
Delimit Scope eff_scope with eff.
Notation "x <- m ;; k" := (bind m (fun x => k))
  (at level 61, m at next level, right associativity) : eff_scope.
Notation "m ;; k" := (bind m (fun _ => k))
  (at level 61, right associativity) : eff_scope.
Local Open Scope eff_scope.

(* ===================================================================== *)
(** ** The manual DOM-traversal scraper                                   *)
(* ===================================================================== *)

Module DomScraper.

Definition isIgnorable (n : option Node) : bool :=
  match n with
  | None => false
  | Some n =>
      if negb (NodeType_eqb (Type_ n) ElementNode) then false
      else if string_eqb (Data n) (str "script")
              || string_eqb (Data n) (str "style")
              || string_eqb (Data n) (str "head")
              || string_eqb (Data n) (str "noscript")
      then true
      else false
  end.

(** The closure [traverse] of [extractTextFromHTML]; the builder it
    writes to is threaded through, [parent] is [n.Parent]. *)
Fixpoint traverse (parent : option Node) (n : Node) (b : Builder) : Builder :=
  let b1 :=
    if NodeType_eqb (Type_ n) TextNode && negb (isIgnorable parent) then
      let text := TrimSpace (Data n) in
      if (len text >? 0)%Z then WriteString b (text ++ str " ") else b
    else b in
  fold_left (fun acc c => traverse (Some n) c acc) (Children n) b1.

(** [extractTextFromHTML] once the document is parsed; the root that
    [html.Parse] returns has no parent. *)
Definition extractText (doc : Node) : gostring :=
  TrimSpace (String (traverse None doc newBuilder)).

Definition extractTextFromHTML (W : World) (r : gostring)
  : gostring * option error :=
  match html_Parse W r with
  | Fail err => ([], Some err)
  | Ok doc => (extractText doc, None)
  end.

Definition ExtractTextFromURL (W : World) (u : gostring)
  : Eff (gostring * option error) :=
  emit (EvGet DefaultClient u) ;;
  match client_Get W DefaultClient u with
  | Fail err => ret ([], Some err)
  | Ok resp =>
      defer (EvClose u)
        (if negb (StatusCode resp =? StatusOK)%Z then
           ret ([], Some (errors_New (str "failed to fetch page")))
         else
           ret (extractTextFromHTML W (Body resp)))
  end.

(** *** Reading the traversal as a list of text nodes *)

Definition nonempty (t : gostring) : bool := (len t >? 0)%Z.

(** What one text node adds to the builder. *)
Definition piece (d : gostring) : gostring :=
  let text := TrimSpace d in
  if nonempty text then text ++ str " " else [].

(** The [Data] of the text nodes the traversal lets through, in
    document order. *)
Fixpoint visible_texts (parent : option Node) (n : Node) : list gostring :=
  (if NodeType_eqb (Type_ n) TextNode && negb (isIgnorable parent)
   then [Data n] else [])
  ++ flat_map (visible_texts (Some n)) (Children n).

End DomScraper.

(* ===================================================================== *)
(** ** scraper/text.go: the readability scraper                           *)
(* ===================================================================== *)

Module ReadabilityScraper.

(** [&http.Client{Timeout: 10 * time.Second}] *)
Definition client : Client := {| Timeout := 10 * Second |}.

Definition ExtractTextFromURL (W : World) (u : gostring)
  : Eff (gostring * option error) :=
  emit (EvGet client u) ;;
  match client_Get W client u with
  | Fail err => ret ([], Some err)
  | Ok resp =>
      defer (EvClose u)
        (if negb (StatusCode resp =? StatusOK)%Z then
           ret ([], Some (errors_New (str "failed to fetch the page")))
         else
           match url_Parse W u with
           | Fail _ => ret ([], Some (errors_New (str "failed to parse URL")))
           | Ok parsedURL =>
               match readability_FromReader W (Body resp) parsedURL with
               | Fail err => ret ([], Some err)
               | Ok article =>
                   if (len (TextContent article) <? 100)%Z then
                     ret ([], Some (errors_New
                                      (str "extract failed: content too short")))
                   else
                     ret (TextContent article, None)
               end
           end)
  end.

End ReadabilityScraper.

(* ===================================================================== *)
(** ** main.go: the handler of POST /scrape                               *)
(* ===================================================================== *)

Module Server.

(** [extract] is [scraper.ExtractTextFromURL], whichever file of the
    package provides it. *)
Definition scrapeHandler (W : World)
    (extract : gostring -> Eff (gostring * option error))
    (w : ResponseWriter) (r : Request) : Eff ResponseWriter :=
  if negb (string_eqb (Method r) MethodPost) then
    ret (Error_ w (str "Method not allowed") StatusMethodNotAllowed)
  else
    match json_Decode W (ReqBody r) with
    | Fail _ => ret (Error_ w (str "Invalid JSON") StatusBadRequest)
    | Ok req =>
        emit (EvExtract (URL req)) ;;
        res <- extract (URL req) ;;
        match res with
        | (_, Some err) =>
            ret (Error_ w (str "Scraping failed: " ++ Error err)
                   StatusInternalServerError)
        | (content, None) =>
            let w1 := SetHeader w "Content-Type" "application/json" in
            ret (Encode w1 {| Content := content |})
        end
    end.

(** The server hands every request a fresh writer. *)
Definition serve (W : World)
    (extract : gostring -> Eff (gostring * option error)) (r : Request)
  : Eff ResponseWriter :=
  scrapeHandler W extract newResponseWriter r.

End Server.

(* ===================================================================== *)
(** ** The written specification, over the same vocabulary                *)
(* ===================================================================== *)

Module Spec.

(** *** Content extractor (section 4.2) *)

(** The minimum-content threshold. *)
Definition MinContent : Z := 100.

(** The primary path succeeds, with text below the threshold. *)
Definition primary_short (W : World) (u : gostring) : Prop :=
  exists resp parsedURL article,
    client_Get W ReadabilityScraper.client u = Ok resp
    /\ StatusCode resp = StatusOK
    /\ url_Parse W u = Ok parsedURL
    /\ readability_FromReader W (Body resp) parsedURL = Ok article
    /\ (len (TextContent article) < MinContent)%Z.

Definition failed (res : gostring * option error) : Prop :=
  snd res <> None.

(** The GET suffers a transport error or returns a status other than
    200 OK. *)
Definition fetch_rejected (W : World) (c : Client) (u : gostring) : Prop :=
  (exists e, client_Get W c u = Fail e)
  \/ (exists resp, client_Get W c u = Ok resp /\ StatusCode resp <> StatusOK).

Definition headless_attempted (t : list Event) : Prop :=
  existsb is_headless t = true.

(** Short text triggers a headless attempt before a terminal failure. *)
Definition short_content_falls_back (W : World) (u : gostring) : Prop :=
  primary_short W u ->
  let run := ReadabilityScraper.ExtractTextFromURL W u in
  failed (value run) -> headless_attempted (trace run).

(** An error carries the HTTP status when its message shows the code. *)
Definition carries_status (e : error) (code : Z) : bool :=
  Contains (Error e) (Itoa code).

Definition fetch_failure_reports_status
    (extract : World -> gostring -> Eff (gostring * option error))
    (c : Client) (W : World) (u : gostring) : Prop :=
  forall resp,
    client_Get W c u = Ok resp -> StatusCode resp <> StatusOK ->
    exists e, value (extract W u) = ([], Some e)
              /\ carries_status e (StatusCode resp) = true.

(** The text-extraction rule: the subtree of a non-content element is
    left out as a whole. *)
Definition non_content (n : Node) : bool :=
  DomScraper.isIgnorable (Some n).

Fixpoint content_texts (n : Node) : list gostring :=
  if non_content n then []
  else (if NodeType_eqb (Type_ n) TextNode then [Data n] else [])
       ++ flat_map content_texts (Children n).

Definition extractText (doc : Node) : gostring :=
  TrimSpace (concat (map DomScraper.piece (content_texts doc))).

Definition leaf (n : Node) : bool :=
  match Children n with
  | [] => true
  | _ :: _ => false
  end.

(** Documents in which a non-content element has only leaves below it,
    as [script] and [style] have. *)
Fixpoint flat_non_content (n : Node) : bool :=
  (if non_content n then forallb leaf (Children n) else true)
  && forallb flat_non_content (Children n).

(** Collapsed whitespace. *)
Definition leading_space (s : gostring) : bool :=
  match s with
  | [] => false
  | r :: _ => IsSpace r
  end.

Definition trailing_space (s : gostring) : bool := leading_space (rev s).

Fixpoint has_double_space (s : gostring) : bool :=
  match s with
  | [] => false
  | a :: s' => (IsSpace a && leading_space s') || has_double_space s'
  end.

Definition whitespace_only (s : gostring) : bool := forallb IsSpace s.

(** A non-empty string with a non-space rune at either end. *)
Definition tidy (s : gostring) : Prop :=
  s <> [] /\ leading_space s = false /\ trailing_space s = false.

Definition whitespace_collapsed (out : gostring) : Prop :=
  leading_space out = false
  /\ trailing_space out = false
  /\ has_double_space out = false.

(** *** Submission and error responses (sections 4.1, 6 and 7) *)

Definition http_scheme (u : gostring) : bool :=
  HasPrefix u (str "http://") || HasPrefix u (str "https://").

Definition fetch_free (t : list Event) : Prop := existsb is_fetch t = false.
Definition extraction_free (t : list Event) : Prop :=
  existsb is_extract t = false /\ fetch_free t.

Definition is_some {A} (o : option A) : bool :=
  match o with Some _ => true | None => false end.

(** [{success:false, error:{code, message, details}}] *)
Definition error_envelope (v : JSON) : bool :=
  match field "success" v, field "error" v with
  | Some (JBool false), Some e =>
      is_some (field "code" e) && is_some (field "message" e)
      && is_some (field "details" e)
  | _, _ => false
  end.

Definition responds_error_envelope (w : ResponseWriter) : Prop :=
  exists v, Written w = [Json v] /\ error_envelope v = true.

Definition carries_job_id (w : ResponseWriter) : Prop :=
  exists v, Written w = [Json v] /\ is_some (field "job_id" v) = true.

(** [{success, job_id, status:processing, estimated_completion}] *)
Definition acknowledges_job (w : ResponseWriter) : Prop :=
  exists v, Written w = [Json v]
            /\ is_some (field "job_id" v) = true
            /\ field "status" v = Some (JString (str "processing")).

Definition decodes (W : World) (r : Request) (req : scrapeRequest) : Prop :=
  Method r = MethodPost /\ json_Decode W (ReqBody r) = Ok req.

(** A url with another scheme is rejected before any fetch. *)
Definition rejects_before_fetch (W : World)
    (extract : gostring -> Eff (gostring * option error)) (r : Request)
  : Prop :=
  forall req,
    decodes W r req -> http_scheme (URL req) = false ->
    let run := Server.serve W extract r in
    responds_error_envelope (value run)
    /\ fetch_free (trace run)
    /\ ~ carries_job_id (value run).

(** A valid submission is acknowledged without extracting. *)
Definition submission_is_nonblocking (W : World)
    (extract : gostring -> Eff (gostring * option error)) (r : Request)
  : Prop :=
  forall req,
    decodes W r req -> http_scheme (URL req) = true ->
    let run := Server.serve W extract r in
    acknowledges_job (value run) /\ extraction_free (trace run).

(** Every failure is answered with the error envelope. *)
Definition request_fails (w : ResponseWriter) : Prop :=
  Status w <> Some StatusOK.

Definition failures_are_error_envelopes (W : World)
    (extract : gostring -> Eff (gostring * option error)) (r : Request)
  : Prop :=
  let run := Server.serve W extract r in
  request_fails (value run) -> responds_error_envelope (value run).

End Spec.

(* ===================================================================== *)
(** ** Sample worlds and documents                                        *)
(* ===================================================================== *)

Module Samples.

Definition quote : gostring := [34%N].

(** The request body [{"url":"<u>"}]. *)
Definition url_object (u : gostring) : gostring :=
  str "{" ++ quote ++ str "url" ++ quote ++ str ":" ++ quote
  ++ u ++ quote ++ str "}".

(** A decoder for bodies of exactly that form. *)
Definition decode_url_object (b : gostring) : result scrapeRequest :=
  let pre := str "{" ++ quote ++ str "url" ++ quote ++ str ":" ++ quote in
  let post := quote ++ str "}" in
  if HasPrefix b pre && HasPrefix (rev (skipn (length pre) b)) (rev post)
  then Ok {| URL := rev (skipn (length post)
                           (rev (skipn (length pre) b))) |}
  else Fail (errors_New (str "invalid character")).

(** [<html><head><title>Hello</title></head><body><p>World</p></body></html>] *)
Definition title_text : Node := text "Hello".
Definition head_node : Node := elem "head" [elem "title" [title_text]].
Definition titled_page : Node :=
  document
    [elem "html" [head_node; elem "body" [elem "p" [text "World"]]]].

(** [<p>a  b</p>], with two spaces inside the text. *)
Definition spaced_page : Node :=
  document
    [elem "html" [elem "head" []; elem "body" [elem "p" [text "a  b"]]]].

(** A text node directly under the document node. *)
Definition bare_text : Node := text " top ".
Definition bare_page : Node := document [bare_text].

(** A server that answers every GET with [status] and [body]; a url
    whose scheme the transport does not support fails in the
    transport. *)
Definition site (status : Z) (body : gostring) (doc : Node) : World :=
  {| client_Get := fun _ u =>
       if Spec.http_scheme u
       then Ok {| StatusCode := status; Body := body |}
       else Fail (errors_New (str "unsupported protocol scheme"));
     url_Parse := fun u => Ok {| Raw := u |};
     readability_FromReader := fun b _ => Ok {| TextContent := b |};
     html_Parse := fun _ => Ok doc;
     json_Decode := decode_url_object |}.

Definition short_text : gostring := str "Loading, please wait...".

Definition long_text : gostring :=
  str "The quick brown fox jumps over the lazy dog. "
  ++ str "The quick brown fox jumps over the lazy dog. "
  ++ str "The quick brown fox jumps over the lazy dog.".

Definition post (u : string) : Request :=
  {| Method := MethodPost; ReqBody := url_object (str u) |}.

Definition get_request : Request :=
  {| Method := str "GET"; ReqBody := [] |}.

Definition broken_post : Request :=
  {| Method := MethodPost; ReqBody := str "{url" |}.

End Samples.

Unset Implicit Arguments.

(* ===================================================================== *)
(** ** Strings                                                            *)
(* ===================================================================== *)

Section StringFacts.

Lemma string_eqb_refl (s : gostring) : string_eqb s s = true.
Proof.
  induction s as [|a s IH]; simpl; [reflexivity|].
  unfold rune_eqb. now rewrite N.eqb_refl.
Qed.

Lemma string_eqb_eq (s t : gostring) : string_eqb s t = true <-> s = t.
Proof.
  split.
  - revert t. induction s as [|a s IH]; intros [|b t]; simpl;
      try discriminate; [reflexivity|].
    intros H. apply andb_true_iff in H. destruct H as [Hab Hst].
    apply N.eqb_eq in Hab. subst b. f_equal. now apply IH.
  - intros ->. apply string_eqb_refl.
Qed.

Lemma string_eqb_neq (s t : gostring) : s <> t -> string_eqb s t = false.
Proof.
  intros H. destruct (string_eqb s t) eqn:E; [|reflexivity].
  apply string_eqb_eq in E. contradiction.
Qed.

Lemma RuneLen_pos (r : rune) : (0 < RuneLen r)%Z.
Proof.
  unfold RuneLen.
  destruct (r <? 128)%N; [lia|].
  destruct (r <? 2048)%N; [lia|].
  destruct (r <? 65536)%N; lia.
Qed.

Lemma len_nonneg (s : gostring) : (0 <= len s)%Z.
Proof.
  induction s as [|r s IH]; simpl; [lia|].
  pose proof (RuneLen_pos r). lia.
Qed.

Lemma nonempty_iff (s : gostring) : DomScraper.nonempty s = true <-> s <> [].
Proof.
  unfold DomScraper.nonempty. destruct s as [|r s]; simpl.
  - split; [discriminate | congruence].
  - pose proof (RuneLen_pos r). pose proof (len_nonneg s).
    split; [discriminate | intros _; apply Z.gtb_lt; lia].
Qed.

Lemma nonempty_nil : DomScraper.nonempty [] = false.
Proof. reflexivity. Qed.

End StringFacts.

(** *** Trimming *)

Section Trimming.

Import Spec.

Lemma TrimLeft_lead (s : gostring) :
  leading_space (TrimLeftFunc IsSpace s) = false.
Proof.
  induction s as [|r s IH]; simpl; [reflexivity|].
  destruct (IsSpace r) eqn:E; [exact IH | simpl; exact E].
Qed.

Lemma TrimLeft_fix (s : gostring) :
  leading_space s = false -> TrimLeftFunc IsSpace s = s.
Proof.
  destruct s as [|r s]; simpl; [reflexivity|].
  now intros ->.
Qed.

Lemma TrimLeft_snoc (s : gostring) (c : rune) :
  IsSpace c = false -> exists u, TrimLeftFunc IsSpace (s ++ [c]) = u ++ [c].
Proof.
  intros Hc. induction s as [|r s IH]; simpl.
  - rewrite Hc. now exists [].
  - destruct (IsSpace r); [exact IH|].
    now exists (r :: s).
Qed.

Lemma TrimLeft_whitespace_only (s : gostring) :
  whitespace_only s = true -> TrimLeftFunc IsSpace s = [].
Proof.
  induction s as [|r s IH]; simpl; [reflexivity|].
  intros H. apply andb_true_iff in H. destruct H as [Hr Hs].
  rewrite Hr. now apply IH.
Qed.

Lemma TrimSpace_lead (s : gostring) : leading_space (TrimSpace s) = false.
Proof.
  unfold TrimSpace, TrimFunc, TrimRightFunc.
  pose proof (TrimLeft_lead s) as H.
  destruct (TrimLeftFunc IsSpace s) as [|c t]; [reflexivity|].
  simpl in H. simpl rev.
  destruct (TrimLeft_snoc (rev t) c H) as [u ->].
  rewrite rev_app_distr. simpl. exact H.
Qed.

Lemma TrimSpace_trail (s : gostring) : trailing_space (TrimSpace s) = false.
Proof.
  unfold trailing_space, TrimSpace, TrimFunc, TrimRightFunc.
  rewrite rev_involutive. apply TrimLeft_lead.
Qed.

Lemma TrimSpace_fix (s : gostring) :
  leading_space s = false -> trailing_space s = false -> TrimSpace s = s.
Proof.
  unfold trailing_space, TrimSpace, TrimFunc, TrimRightFunc.
  intros Hl Ht. rewrite (TrimLeft_fix _ Hl), (TrimLeft_fix _ Ht).
  apply rev_involutive.
Qed.

Lemma TrimSpace_whitespace_only (s : gostring) :
  whitespace_only s = true -> TrimSpace s = [].
Proof.
  intros H. unfold TrimSpace, TrimFunc.
  now rewrite (TrimLeft_whitespace_only _ H).
Qed.

Lemma TrimSpace_tidy (s : gostring) :
  DomScraper.nonempty (TrimSpace s) = true -> tidy (TrimSpace s).
Proof.
  intros H. apply nonempty_iff in H.
  split; [exact H|]. split; [apply TrimSpace_lead | apply TrimSpace_trail].
Qed.

Lemma leading_space_app (x y : gostring) :
  x <> [] -> leading_space (x ++ y) = leading_space x.
Proof. destruct x; [congruence | reflexivity]. Qed.

Lemma trailing_space_app (x y : gostring) :
  y <> [] -> trailing_space (x ++ y) = trailing_space y.
Proof.
  intros Hy. unfold trailing_space. rewrite rev_app_distr.
  apply leading_space_app. intros E.
  apply (f_equal (@rev rune)) in E. rewrite rev_involutive in E.
  now apply Hy.
Qed.

Lemma tidy_glue (x sep y : gostring) :
  tidy x -> tidy y -> tidy (x ++ sep ++ y).
Proof.
  intros (Hx & Hxl & _) (Hy & _ & Hyt). repeat split.
  - destruct x; [congruence | discriminate].
  - now rewrite leading_space_app.
  - rewrite app_assoc. now rewrite trailing_space_app.
Qed.

Lemma TrimSpace_tidy_space (x : gostring) :
  tidy x -> TrimSpace (x ++ str " ") = x.
Proof.
  intros (Hx & Hl & Ht).
  unfold TrimSpace, TrimFunc, TrimRightFunc.
  rewrite (TrimLeft_fix (x ++ str " "))
    by (rewrite leading_space_app; assumption).
  rewrite rev_app_distr. simpl.
  rewrite (TrimLeft_fix _ Ht). apply rev_involutive.
Qed.

Lemma Join_tidy (ts : list gostring) (sep : gostring) :
  ts <> [] -> Forall tidy ts -> tidy (Join ts sep).
Proof.
  induction ts as [|t ts IH]; [congruence|].
  intros _ H. inversion H as [|? ? Ht Hts]; subst.
  destruct ts as [|t' ts]; [exact Ht|].
  change (tidy (t ++ sep ++ Join (t' :: ts) sep)).
  apply tidy_glue; [exact Ht|]. apply IH; [discriminate | exact Hts].
Qed.

Lemma concat_spaced (ts : list gostring) :
  ts <> [] ->
  concat (map (fun t => t ++ str " ") ts) = Join ts (str " ") ++ str " ".
Proof.
  induction ts as [|t ts IH]; [congruence|]. intros _.
  destruct ts as [|t' ts].
  - simpl. now rewrite app_nil_r.
  - change (concat (map (fun t => t ++ str " ") (t :: t' :: ts)))
      with ((t ++ str " ")
            ++ concat (map (fun t => t ++ str " ") (t' :: ts))).
    rewrite IH by discriminate.
    change (Join (t :: t' :: ts) (str " "))
      with (t ++ str " " ++ Join (t' :: ts) (str " ")).
    now rewrite <- !app_assoc.
Qed.

Lemma TrimSpace_spaced (ts : list gostring) :
  Forall tidy ts ->
  TrimSpace (concat (map (fun t => t ++ str " ") ts)) = Join ts (str " ").
Proof.
  intros H. destruct ts as [|t ts]; [reflexivity|].
  rewrite concat_spaced by discriminate.
  apply TrimSpace_tidy_space. apply Join_tidy; [discriminate | exact H].
Qed.

End Trimming.

(* ===================================================================== *)
(** ** The DOM traversal                                                  *)
(* ===================================================================== *)

Section Traversal.

Import DomScraper.

Lemma isIgnorable_nil : isIgnorable None = false.
Proof. reflexivity. Qed.

Lemma isIgnorable_non_element (n : Node) :
  Type_ n <> ElementNode -> isIgnorable (Some n) = false.
Proof.
  intros H. unfold isIgnorable.
  destruct (Type_ n); simpl; try reflexivity. now elim H.
Qed.

(** The children loop of [traverse]. *)
Lemma traverse_children (q : option Node) (cs : list Node) :
  Forall (fun c => forall p b,
            traverse p c b = b ++ concat (map piece (visible_texts p c))) cs ->
  forall b,
    fold_left (fun acc c => traverse q c acc) cs b
    = b ++ concat (map piece (flat_map (visible_texts q) cs)).
Proof.
  induction 1 as [|c cs Hc _ IH]; intros b; simpl.
  - now rewrite app_nil_r.
  - rewrite IH, Hc, map_app, concat_app. now rewrite app_assoc.
Qed.

(** [traverse] only appends, one [piece] per text node let through. *)
Lemma traverse_spec (n : Node) :
  forall p b, traverse p n b = b ++ concat (map piece (visible_texts p n)).
Proof.
  induction n as [ty d cs IH] using Node_induction. intros p b.
  cbn [traverse visible_texts Type_ Data Children].
  rewrite (traverse_children _ _ IH).
  destruct (NodeType_eqb ty TextNode && negb (isIgnorable p)).
  - cbn [app map concat]. unfold piece, nonempty, WriteString.
    destruct (len (TrimSpace d) >? 0)%Z.
    + now rewrite <- !app_assoc.
    + reflexivity.
  - reflexivity.
Qed.

Lemma extractText_pieces (doc : Node) :
  extractText doc = TrimSpace (concat (map piece (visible_texts None doc))).
Proof.
  unfold extractText, Go.String, newBuilder. now rewrite traverse_spec.
Qed.

Lemma pieces_spaced (ds : list gostring) :
  concat (map piece ds)
  = concat (map (fun t => t ++ str " ")
              (filter nonempty (map TrimSpace ds))).
Proof.
  induction ds as [|d ds IH]; [reflexivity|].
  cbn [map filter concat]. unfold piece at 1.
  destruct (nonempty (TrimSpace d)); cbn [map concat]; now rewrite IH.
Qed.

Lemma trimmed_tidy (ds : list gostring) :
  Forall Spec.tidy (filter nonempty (map TrimSpace ds)).
Proof.
  apply Forall_forall. intros t Ht.
  apply filter_In in Ht. destruct Ht as [Hin Hne].
  apply in_map_iff in Hin. destruct Hin as (d & <- & _).
  now apply TrimSpace_tidy.
Qed.

(** The output is the trimmed, non-empty texts joined by one space. *)
Lemma extractText_join (doc : Node) :
  extractText doc
  = Join (filter nonempty (map TrimSpace (visible_texts None doc)))
      (str " ").
Proof.
  rewrite extractText_pieces, pieces_spaced.
  apply TrimSpace_spaced, trimmed_tidy.
Qed.

(** A text node below a parent that is not ignorable is let through,
    whatever lies above. *)
Lemma parent_of_visible (p t doc : Node) :
  parent_of p t doc ->
  isIgnorable (Some p) = false -> Type_ t = TextNode ->
  forall q, In (Data t) (visible_texts q doc).
Proof.
  intros H Hp Ht. induction H as [Hin | root k Hin _ IH]; intros q.
  - destruct p as [ty d cs]. cbn [visible_texts Children].
    apply in_or_app. right. apply in_flat_map.
    exists t. split; [exact Hin|].
    destruct t as [ty' d' cs']. cbn [visible_texts Type_ Data] in *.
    rewrite Ht, Hp. now left.
  - destruct root as [ty d cs]. cbn [visible_texts Children] in *.
    apply in_or_app. right. apply in_flat_map.
    exists k. split; [exact Hin | apply IH].
Qed.

Lemma piece_nonempty (d : gostring) :
  TrimSpace d <> [] -> piece d = TrimSpace d ++ str " ".
Proof.
  intros H. unfold piece.
  apply nonempty_iff in H. now rewrite H.
Qed.

(** Text nodes directly below a non-content element are left out. *)
Lemma leaf_children_skipped (a : Node) (cs : list Node) :
  isIgnorable (Some a) = true ->
  Forall (fun c => Children c = []) cs ->
  forall b, fold_left (fun acc c => traverse (Some a) c acc) cs b = b.
Proof.
  intros Ha. induction 1 as [|c cs Hc _ IH]; intros b; [reflexivity|].
  cbn [fold_left]. destruct c as [ty d ks]. cbn [Children] in Hc.
  subst ks. cbn [traverse Children fold_left Type_].
  rewrite Ha. cbn [negb]. rewrite andb_false_r. apply IH.
Qed.

Lemma direct_text_children_skipped (a : Node) (p : option Node) (b : Builder) :
  isIgnorable (Some a) = true ->
  Forall (fun c => Children c = []) (Children a) ->
  traverse p a b = b.
Proof.
  intros Ha Hleaf.
  assert (Hty : NodeType_eqb (Type_ a) TextNode = false).
  { unfold isIgnorable in Ha.
    destruct (Type_ a); try reflexivity; discriminate. }
  destruct a as [ty d cs]. cbn [traverse Type_ Children] in *.
  rewrite Hty. cbn [andb].
  now apply leaf_children_skipped.
Qed.

(** Below an ignorable parent, leaves write nothing. *)
Lemma leaves_under_ignorable (p : option Node) (cs : list Node) :
  isIgnorable p = true -> forallb Spec.leaf cs = true ->
  flat_map (visible_texts p) cs = [].
Proof.
  intros Hp. induction cs as [|c cs IH]; [reflexivity|].
  cbn [forallb flat_map]. intros H. apply andb_true_iff in H.
  destruct H as [Hc Hcs]. rewrite (IH Hcs), app_nil_r.
  destruct c as [ty d ks]. unfold Spec.leaf in Hc. cbn [Children] in Hc.
  destruct ks; [|discriminate].
  cbn [visible_texts Type_ Data Children flat_map].
  now rewrite Hp, andb_false_r.
Qed.

Lemma non_content_not_text (n : Node) :
  Spec.non_content n = true -> NodeType_eqb (Type_ n) TextNode = false.
Proof.
  unfold Spec.non_content, isIgnorable.
  destruct (Type_ n); try reflexivity; discriminate.
Qed.

Lemma flat_children (q : option Node) (cs : list Node) :
  Forall (fun c => forall p,
            isIgnorable p = false -> Spec.flat_non_content c = true ->
            visible_texts p c = Spec.content_texts c) cs ->
  isIgnorable q = false -> forallb Spec.flat_non_content cs = true ->
  flat_map (visible_texts q) cs = flat_map Spec.content_texts cs.
Proof.
  intros IH Hq. induction IH as [|c cs Hc _ IHcs]; [reflexivity|].
  cbn [forallb flat_map]. intros H. apply andb_true_iff in H.
  destruct H as [Hflat Hrest].
  now rewrite (Hc _ Hq Hflat), (IHcs Hrest).
Qed.

(** Where every non-content element has only leaves below it, the
    parent test of [traverse] selects the text nodes of the written
    rule. *)
Lemma visible_texts_flat (n : Node) :
  forall p,
    isIgnorable p = false -> Spec.flat_non_content n = true ->
    visible_texts p n = Spec.content_texts n.
Proof.
  induction n as [ty d cs IH] using Node_induction. intros p Hp Hflat.
  set (n := mkNode ty d cs) in *.
  assert (Hv : visible_texts p n
               = (if NodeType_eqb (Type_ n) TextNode && negb (isIgnorable p)
                  then [Data n] else [])
                 ++ flat_map (visible_texts (Some n)) (Children n))
    by reflexivity.
  assert (Hc : Spec.content_texts n
               = if Spec.non_content n then []
                 else (if NodeType_eqb (Type_ n) TextNode then [Data n] else [])
                      ++ flat_map Spec.content_texts (Children n))
    by reflexivity.
  assert (Hf : Spec.flat_non_content n
               = (if Spec.non_content n
                  then forallb Spec.leaf (Children n) else true)
                 && forallb Spec.flat_non_content (Children n))
    by reflexivity.
  rewrite Hv, Hc. rewrite Hf in Hflat. clear Hv Hc Hf.
  apply andb_true_iff in Hflat. destruct Hflat as [Hleaves Hcs].
  rewrite Hp, andb_true_r.
  destruct (Spec.non_content n) eqn:Hnc.
  - rewrite (non_content_not_text _ Hnc). cbn [app].
    now apply leaves_under_ignorable.
  - f_equal. now apply flat_children.
Qed.

(** On such documents the code computes what the written rule asks. *)
Lemma extractText_flat (doc : Node) :
  Spec.flat_non_content doc = true ->
  extractText doc = Spec.extractText doc.
Proof.
  intros H. rewrite extractText_pieces. unfold Spec.extractText.
  now rewrite (visible_texts_flat doc None).
Qed.

End Traversal.

(** The two sample pages, against the condition of [extractText_flat]:
    [head] of the titled page holds an element with text below it. *)
Example spaced_page_is_flat :
  Spec.flat_non_content Samples.spaced_page = true.
Proof. reflexivity. Qed.

Example titled_page_is_not_flat :
  Spec.flat_non_content Samples.titled_page = false.
Proof. reflexivity. Qed.

(** C2: the text-extraction rule leaves out every text node inside the
    subtree of a non-content element, at any depth. The code tests only
    the direct parent: on
    [<html><head><title>Hello</title></head><body><p>World</p></body></html>]
    the text of [title], two levels below [head], reaches the output,
    where the rule of the specification gives [World] alone. *)
Theorem head_title_text_is_extracted :
  Spec.non_content Samples.head_node = true
  /\ inside Samples.head_node Samples.title_text
  /\ Type_ Samples.title_text = TextNode
  /\ DomScraper.extractText Samples.titled_page = str "Hello World"
  /\ Spec.extractText Samples.titled_page = str "World".
Proof.
  repeat split; try reflexivity.
  apply inside_deeper with (k := elem "title" [Samples.title_text]).
  - apply inside_child. now left.
  - now left.
Qed.

(** C7, as written: the output never holds two consecutive whitespace
    characters. It fails on [<p>a  b</p>]: the two spaces inside the text
    node reach the output. *)
Lemma interior_whitespace_survives :
  ~ Spec.whitespace_collapsed (DomScraper.extractText Samples.spaced_page).
Proof.
  intros (_ & _ & H). vm_compute in H. discriminate.
Qed.

(** C7, amended: the output has no leading and no trailing whitespace,
    a whitespace-only text node writes nothing, and the output is the
    trimmed text of the remaining visible text nodes joined by exactly one
    space; whitespace inside a text node is kept as it is. *)
Theorem extractText_whitespace (doc : Node) :
  let out := DomScraper.extractText doc in
  Spec.leading_space out = false
  /\ Spec.trailing_space out = false
  /\ out = Join (filter DomScraper.nonempty
                   (map TrimSpace (DomScraper.visible_texts None doc)))
             (str " ")
  /\ (forall p d b,
         Spec.whitespace_only d = true ->
         DomScraper.traverse p (mkNode TextNode d []) b = b).
Proof.
  cbv zeta. repeat split.
  - apply TrimSpace_lead.
  - apply TrimSpace_trail.
  - apply extractText_join.
  - intros p d b Hd. cbn [DomScraper.traverse Type_ Data Children fold_left].
    rewrite (TrimSpace_whitespace_only _ Hd). cbn [len].
    now destruct (NodeType_eqb TextNode TextNode
                  && negb (DomScraper.isIgnorable p)).
Qed.

Lemma extractText_whitespace_witness :
  Spec.whitespace_only (str "   ") = true
  /\ DomScraper.traverse None (mkNode TextNode (str "   ") []) (str "x")
     = str "x".
Proof.
  split; [reflexivity|].
  destruct (extractText_whitespace Samples.spaced_page) as (_ & _ & _ & H).
  apply H. reflexivity.
Defined.

(** A piece kept by the join occurs in the joined string. *)
Lemma Join_In (x : gostring) (ts : list gostring) (sep : gostring) :
  In x ts -> exists pre post, Join ts sep = pre ++ x ++ post.
Proof.
  induction ts as [|t ts IH]; [intros []|].
  intros [-> | Hin].
  - destruct ts as [|t' ts].
    + exists [], []. cbn. now rewrite app_nil_r.
    + exists [], (sep ++ Join (t' :: ts) sep). reflexivity.
  - destruct ts as [|t' ts]; [destruct Hin|].
    destruct (IH Hin) as (pre & post & E).
    exists (t ++ sep ++ pre), post.
    change (Join (t :: t' :: ts) sep) with (t ++ sep ++ Join (t' :: ts) sep).
    rewrite E. now rewrite <- !app_assoc.
Qed.

(** The trimmed text of a text node the traversal lets through occurs
    in the extracted text. *)
Lemma visible_text_in_output (doc : Node) (d : gostring) :
  In d (DomScraper.visible_texts None doc) ->
  exists pre post, DomScraper.extractText doc = pre ++ TrimSpace d ++ post.
Proof.
  intros Hin. rewrite extractText_join.
  destruct (DomScraper.nonempty (TrimSpace d)) eqn:Hne.
  - apply Join_In. apply filter_In. split; [|exact Hne].
    now apply in_map.
  - assert (E : TrimSpace d = []).
    { destruct (TrimSpace d) as [|c t]; [reflexivity|].
      rewrite (proj2 (nonempty_iff (c :: t))) in Hne; discriminate. }
    rewrite E. eexists [], _. reflexivity.
Qed.

(** C10: [isIgnorable] answers [false] on a nil node and on every node
    that is not an element, so the traversal can hand it the missing
    parent of the root: a root that is a text node is extracted to its
    trimmed text. A text node whose parent is not an element is let
    through, and its trimmed text occurs in the output of
    [extractTextFromHTML]. *)
Theorem isIgnorable_nil_safe :
  DomScraper.isIgnorable None = false
  /\ (forall n, Type_ n <> ElementNode -> DomScraper.isIgnorable (Some n) = false)
  /\ (forall d, DomScraper.extractText (mkNode TextNode d []) = TrimSpace d)
  /\ (forall doc p t,
         parent_of p t doc -> Type_ p <> ElementNode -> Type_ t = TextNode ->
         In (Data t) (DomScraper.visible_texts None doc)
         /\ (TrimSpace (Data t) <> [] ->
             exists pre post,
               Go.String (DomScraper.traverse None doc newBuilder)
               = pre ++ (TrimSpace (Data t) ++ str " ") ++ post)
         /\ (exists pre post,
                DomScraper.extractText doc
                = pre ++ TrimSpace (Data t) ++ post)
         /\ (forall W body,
                html_Parse W body = Ok doc ->
                exists pre post,
                  DomScraper.extractTextFromHTML W body
                  = (pre ++ TrimSpace (Data t) ++ post, None))).
Proof.
  split; [apply isIgnorable_nil|].
  split; [apply isIgnorable_non_element|].
  split.
  { intros d. rewrite extractText_join.
    cbn [DomScraper.visible_texts Type_ Data Children flat_map NodeType_eqb
           DomScraper.isIgnorable negb andb app map filter].
    destruct (DomScraper.nonempty (TrimSpace d)) eqn:Hne; [reflexivity|].
    destruct (TrimSpace d) as [|c t]; [reflexivity|].
    rewrite (proj2 (nonempty_iff (c :: t))) in Hne; discriminate. }
  intros doc p t Hpar Hp Ht.
  assert (Hin : In (Data t) (DomScraper.visible_texts None doc)).
  { apply (parent_of_visible _ _ _ Hpar); [|exact Ht].
    now apply isIgnorable_non_element. }
  assert (Hout : exists pre post,
             DomScraper.extractText doc = pre ++ TrimSpace (Data t) ++ post)
    by now apply visible_text_in_output.
  split; [exact Hin|]. split; [|split; [exact Hout|]].
  - intros Hne.
    apply in_split in Hin. destruct Hin as (l1 & l2 & E).
    exists (concat (map DomScraper.piece l1)),
           (concat (map DomScraper.piece l2)).
    unfold Go.String, newBuilder. rewrite traverse_spec, E.
    rewrite map_app, concat_app. cbn [map concat app].
    now rewrite (piece_nonempty _ Hne).
  - intros W body Hparse. destruct Hout as (pre & post & E).
    exists pre, post. unfold DomScraper.extractTextFromHTML.
    now rewrite Hparse, E.
Qed.

Lemma isIgnorable_nil_safe_witness :
  parent_of Samples.bare_page Samples.bare_text Samples.bare_page
  /\ Type_ Samples.bare_page <> ElementNode
  /\ Type_ Samples.bare_text = TextNode
  /\ DomScraper.extractText Samples.bare_page = str "top"
  /\ (exists pre post,
         DomScraper.extractText Samples.bare_page
         = pre ++ TrimSpace (Data Samples.bare_text) ++ post).
Proof.
  assert (H1 : parent_of Samples.bare_page Samples.bare_text Samples.bare_page)
    by (apply parent_here; now left).
  assert (H2 : Type_ Samples.bare_page <> ElementNode) by discriminate.
  assert (H3 : Type_ Samples.bare_text = TextNode) by reflexivity.
  split; [exact H1|]. split; [exact H2|]. split; [exact H3|].
  split; [reflexivity|].
  destruct isIgnorable_nil_safe as (_ & _ & _ & H).
  exact (proj1 (proj2 (proj2 (H _ _ _ H1 H2 H3)))).
Defined.

(* ===================================================================== *)
(** ** The two scrapers                                                   *)
(* ===================================================================== *)

Section Scrapers.

Variable W : World.
Variable u : gostring.

Lemma status_not_ok (resp : Response) :
  StatusCode resp <> StatusOK ->
  negb (StatusCode resp =? StatusOK)%Z = true.
Proof.
  intros H. apply negb_true_iff. now apply Z.eqb_neq.
Qed.

Lemma dom_transport_error (e : error) :
  client_Get W DefaultClient u = Fail e ->
  DomScraper.ExtractTextFromURL W u
  = (([], Some e), [EvGet DefaultClient u]).
Proof.
  intros H. unfold DomScraper.ExtractTextFromURL. now rewrite H.
Qed.

Lemma dom_bad_status (resp : Response) :
  client_Get W DefaultClient u = Ok resp ->
  StatusCode resp <> StatusOK ->
  DomScraper.ExtractTextFromURL W u
  = (([], Some (errors_New (str "failed to fetch page"))),
     [EvGet DefaultClient u; EvClose u]).
Proof.
  intros H Hs. unfold DomScraper.ExtractTextFromURL.
  now rewrite H, (status_not_ok _ Hs).
Qed.

Lemma readability_transport_error (e : error) :
  client_Get W ReadabilityScraper.client u = Fail e ->
  ReadabilityScraper.ExtractTextFromURL W u
  = (([], Some e), [EvGet ReadabilityScraper.client u]).
Proof.
  intros H. unfold ReadabilityScraper.ExtractTextFromURL. now rewrite H.
Qed.

Lemma readability_bad_status (resp : Response) :
  client_Get W ReadabilityScraper.client u = Ok resp ->
  StatusCode resp <> StatusOK ->
  ReadabilityScraper.ExtractTextFromURL W u
  = (([], Some (errors_New (str "failed to fetch the page"))),
     [EvGet ReadabilityScraper.client u; EvClose u]).
Proof.
  intros H Hs. unfold ReadabilityScraper.ExtractTextFromURL.
  now rewrite H, (status_not_ok _ Hs).
Qed.

(** Both scrapers begin with the GET of the url they are given. *)
Lemma dom_starts_with_get :
  exists rest,
    trace (DomScraper.ExtractTextFromURL W u)
    = EvGet DefaultClient u :: rest.
Proof.
  unfold DomScraper.ExtractTextFromURL.
  destruct (client_Get W DefaultClient u) as [resp|e];
    [destruct (negb (StatusCode resp =? StatusOK)%Z)|];
    eexists; reflexivity.
Qed.

Lemma readability_trace :
  trace (ReadabilityScraper.ExtractTextFromURL W u)
  = match client_Get W ReadabilityScraper.client u with
    | Ok _ => [EvGet ReadabilityScraper.client u; EvClose u]
    | Fail _ => [EvGet ReadabilityScraper.client u]
    end.
Proof.
  unfold ReadabilityScraper.ExtractTextFromURL.
  destruct (client_Get W ReadabilityScraper.client u) as [resp|e];
    [|reflexivity].
  destruct (negb (StatusCode resp =? StatusOK)%Z); [reflexivity|].
  destruct (url_Parse W u) as [pu|]; [|reflexivity].
  destruct (readability_FromReader W (Body resp) pu) as [a|]; [|reflexivity].
  now destruct (len (TextContent a) <? 100)%Z.
Qed.

Lemma readability_starts_with_get :
  exists rest,
    trace (ReadabilityScraper.ExtractTextFromURL W u)
    = EvGet ReadabilityScraper.client u :: rest.
Proof.
  rewrite readability_trace.
  destruct (client_Get W ReadabilityScraper.client u); eexists; reflexivity.
Qed.

(** Neither scraper ever starts a headless rendering. *)
Lemma readability_never_headless :
  existsb is_headless (trace (ReadabilityScraper.ExtractTextFromURL W u))
  = false.
Proof.
  rewrite readability_trace.
  now destruct (client_Get W ReadabilityScraper.client u).
Qed.

End Scrapers.

(** C1, as written: short extracted text triggers a headless attempt
    before a terminal failure. It fails on a page that answers 200 with
    23 bytes of text: the call ends in an error after the GET alone. *)
Lemma short_content_fails_at_once :
  ~ Spec.short_content_falls_back
      (Samples.site 200 Samples.short_text Samples.titled_page)
      (str "https://example.com").
Proof.
  intros H.
  assert (Hshort : Spec.primary_short
            (Samples.site 200 Samples.short_text Samples.titled_page)
            (str "https://example.com")).
  { exists {| StatusCode := 200; Body := Samples.short_text |},
           {| Raw := str "https://example.com" |},
           {| TextContent := Samples.short_text |}.
    repeat split. }
  specialize (H Hshort). cbv zeta in H.
  assert (Hfail : Spec.failed
            (value (ReadabilityScraper.ExtractTextFromURL
                      (Samples.site 200 Samples.short_text Samples.titled_page)
                      (str "https://example.com")))) by discriminate.
  specialize (H Hfail). unfold Spec.headless_attempted in H.
  rewrite readability_never_headless in H. discriminate.
Qed.

(** C1, amended: when the primary path succeeds with text shorter than
    100 bytes, [ExtractTextFromURL] returns no content and the terminal
    error [extract failed: content too short], having done the GET and
    closed its body; no headless rendering is attempted. *)
Theorem short_content_is_terminal (W : World) (u : gostring) :
  Spec.primary_short W u ->
  ReadabilityScraper.ExtractTextFromURL W u
  = (([], Some (errors_New (str "extract failed: content too short"))),
     [EvGet ReadabilityScraper.client u; EvClose u])
  /\ ~ Spec.headless_attempted
         (trace (ReadabilityScraper.ExtractTextFromURL W u)).
Proof.
  intros (resp & pu & art & Hget & Hst & Hurl & Hread & Hlen).
  split.
  - unfold ReadabilityScraper.ExtractTextFromURL.
    rewrite Hget, Hst, Hurl, Hread.
    unfold Spec.MinContent in Hlen. apply Z.ltb_lt in Hlen.
    now rewrite Hlen.
  - unfold Spec.headless_attempted.
    now rewrite readability_never_headless.
Qed.

Lemma short_content_is_terminal_witness :
  Spec.primary_short
    (Samples.site 200 Samples.short_text Samples.titled_page)
    (str "https://example.com")
  /\ value (ReadabilityScraper.ExtractTextFromURL
              (Samples.site 200 Samples.short_text Samples.titled_page)
              (str "https://example.com"))
     = ([], Some (errors_New (str "extract failed: content too short"))).
Proof.
  assert (Hshort : Spec.primary_short
            (Samples.site 200 Samples.short_text Samples.titled_page)
            (str "https://example.com")).
  { exists {| StatusCode := 200; Body := Samples.short_text |},
           {| Raw := str "https://example.com" |},
           {| TextContent := Samples.short_text |}.
    repeat split. }
  split; [exact Hshort|].
  now rewrite (proj1 (short_content_is_terminal _ _ Hshort)).
Defined.

(** C6, as written: on a non-success status the error carries the HTTP
    status received. It fails on a page that answers 404: the error is
    [failed to fetch the page], with no status in it. *)
Lemma status_is_not_reported :
  ~ Spec.fetch_failure_reports_status
      ReadabilityScraper.ExtractTextFromURL ReadabilityScraper.client
      (Samples.site 404 [] Samples.titled_page) (str "https://example.com").
Proof.
  intros H.
  destruct (H {| StatusCode := 404; Body := [] |} eq_refl) as (e & Hv & Hc).
  - discriminate.
  - vm_compute in Hv. injection Hv as <-. vm_compute in Hc. discriminate.
Qed.

(** C6, amended: a transport error or a status other than 200 OK makes
    either [ExtractTextFromURL] return no content and an error: the
    transport's own error, or a fixed message that is the same for every
    status and so does not carry the status received. *)
Theorem fetch_failure_is_fixed_error (W : World) (u : gostring) :
  (forall e,
      client_Get W ReadabilityScraper.client u = Fail e ->
      value (ReadabilityScraper.ExtractTextFromURL W u) = ([], Some e))
  /\ (forall resp,
         client_Get W ReadabilityScraper.client u = Ok resp ->
         StatusCode resp <> StatusOK ->
         value (ReadabilityScraper.ExtractTextFromURL W u)
         = ([], Some (errors_New (str "failed to fetch the page"))))
  /\ (forall e,
         client_Get W DefaultClient u = Fail e ->
         value (DomScraper.ExtractTextFromURL W u) = ([], Some e))
  /\ (forall resp,
         client_Get W DefaultClient u = Ok resp ->
         StatusCode resp <> StatusOK ->
         value (DomScraper.ExtractTextFromURL W u)
         = ([], Some (errors_New (str "failed to fetch page")))).
Proof.
  repeat split.
  - intros e H. now rewrite (readability_transport_error _ _ _ H).
  - intros resp H Hs. now rewrite (readability_bad_status _ _ _ H Hs).
  - intros e H. now rewrite (dom_transport_error _ _ _ H).
  - intros resp H Hs. now rewrite (dom_bad_status _ _ _ H Hs).
Qed.

Lemma fetch_failure_is_fixed_error_witness :
  client_Get (Samples.site 404 [] Samples.titled_page)
    ReadabilityScraper.client (str "https://example.com")
  = Ok {| StatusCode := 404; Body := [] |}
  /\ 404%Z <> StatusOK
  /\ value (ReadabilityScraper.ExtractTextFromURL
              (Samples.site 404 [] Samples.titled_page)
              (str "https://example.com"))
     = ([], Some (errors_New (str "failed to fetch the page"))).
Proof.
  split; [reflexivity|]. split; [discriminate|].
  destruct (fetch_failure_is_fixed_error
              (Samples.site 404 [] Samples.titled_page)
              (str "https://example.com")) as (_ & H & _).
  apply (H {| StatusCode := 404; Body := [] |}); [reflexivity | discriminate].
Defined.

(** C8: the two implementations of [ExtractTextFromURL] agree on which
    fetches they accept: when the GET suffers a transport error or
    returns a status other than 200 OK, each returns an error and no
    content. *)
Theorem extractors_reject_failed_fetch (W : World) (u : gostring) :
  (Spec.fetch_rejected W DefaultClient u ->
   exists e, value (DomScraper.ExtractTextFromURL W u) = ([], Some e))
  /\ (Spec.fetch_rejected W ReadabilityScraper.client u ->
      exists e,
        value (ReadabilityScraper.ExtractTextFromURL W u) = ([], Some e)).
Proof.
  split; intros [(e & H) | (resp & H & Hs)].
  - exists e. now rewrite (dom_transport_error _ _ _ H).
  - eexists. now rewrite (dom_bad_status _ _ _ H Hs).
  - exists e. now rewrite (readability_transport_error _ _ _ H).
  - eexists. now rewrite (readability_bad_status _ _ _ H Hs).
Qed.

Lemma extractors_reject_failed_fetch_witness :
  Spec.fetch_rejected (Samples.site 503 [] Samples.titled_page)
    DefaultClient (str "http://example.com")
  /\ exists e,
       value (DomScraper.ExtractTextFromURL
                (Samples.site 503 [] Samples.titled_page)
                (str "http://example.com")) = ([], Some e).
Proof.
  assert (H : Spec.fetch_rejected (Samples.site 503 [] Samples.titled_page)
                DefaultClient (str "http://example.com")).
  { right. exists {| StatusCode := 503; Body := [] |}.
    split; [reflexivity | discriminate]. }
  split; [exact H|].
  exact (proj1 (extractors_reject_failed_fetch
                  (Samples.site 503 [] Samples.titled_page)
                  (str "http://example.com")) H).
Defined.

(* ===================================================================== *)
(** ** The handler                                                        *)
(* ===================================================================== *)

Section Handler.

Variable W : World.
Variable extract : gostring -> Eff (gostring * option error).
Variable r : Request.

Lemma serve_wrong_method :
  Method r <> MethodPost ->
  Server.serve W extract r
  = (Error_ newResponseWriter (str "Method not allowed")
       StatusMethodNotAllowed, []).
Proof.
  intros H. unfold Server.serve, Server.scrapeHandler.
  now rewrite (string_eqb_neq _ _ H).
Qed.

Lemma serve_bad_body (e : error) :
  Method r = MethodPost ->
  json_Decode W (ReqBody r) = Fail e ->
  Server.serve W extract r
  = (Error_ newResponseWriter (str "Invalid JSON") StatusBadRequest, []).
Proof.
  intros Hm Hd. unfold Server.serve, Server.scrapeHandler.
  now rewrite Hm, string_eqb_refl, Hd.
Qed.

Lemma serve_scrape_error (req : scrapeRequest) (c : gostring) (e : error) :
  Spec.decodes W r req ->
  value (extract (URL req)) = (c, Some e) ->
  Server.serve W extract r
  = (Error_ newResponseWriter (str "Scraping failed: " ++ Error e)
       StatusInternalServerError,
     EvExtract (URL req) :: trace (extract (URL req))).
Proof.
  intros (Hm & Hd) Hv. unfold Server.serve, Server.scrapeHandler.
  rewrite Hm, string_eqb_refl, Hd.
  destruct (extract (URL req)) as [res t]. cbn in Hv. subst res.
  cbn. now rewrite app_nil_r.
Qed.

Lemma serve_success (req : scrapeRequest) (content : gostring) :
  Spec.decodes W r req ->
  value (extract (URL req)) = (content, None) ->
  Server.serve W extract r
  = (Encode (SetHeader newResponseWriter "Content-Type" "application/json")
       {| Content := content |},
     EvExtract (URL req) :: trace (extract (URL req))).
Proof.
  intros (Hm & Hd) Hv. unfold Server.serve, Server.scrapeHandler.
  rewrite Hm, string_eqb_refl, Hd.
  destruct (extract (URL req)) as [res t]. cbn in Hv. subst res.
  cbn. now rewrite app_nil_r.
Qed.

(** Whatever the extractor answers, it is called once the body decodes. *)
Lemma serve_trace (req : scrapeRequest) :
  Spec.decodes W r req ->
  trace (Server.serve W extract r)
  = EvExtract (URL req) :: trace (extract (URL req)).
Proof.
  intros Hdec.
  destruct (value (extract (URL req))) as [c [e|]] eqn:Hv.
  - now rewrite (serve_scrape_error _ _ _ Hdec Hv).
  - now rewrite (serve_success _ _ Hdec Hv).
Qed.

End Handler.

(** *** What [http.Error] and [Encode] leave on a fresh writer *)

Lemma Error_fresh (msg : gostring) (code : Z) :
  let w := Error_ newResponseWriter msg code in
  Status w = Some code
  /\ Written w = [Text (msg ++ [10%N])]
  /\ header_Get (str "Content-Type") (Header w)
     = Some (str "text/plain; charset=utf-8").
Proof. repeat split. Qed.

Lemma Encode_fresh (content : gostring) :
  let w := Encode (SetHeader newResponseWriter "Content-Type" "application/json")
             {| Content := content |} in
  Status w = Some StatusOK
  /\ Written w = [Json (JObject [(str "content", JString content)])]
  /\ header_Get (str "Content-Type") (Header w)
     = Some (str "application/json").
Proof. repeat split. Qed.

Lemma Error_Written (w : ResponseWriter) (msg : gostring) (code : Z) :
  Written (Error_ w msg code) = Written w ++ [Text (msg ++ [10%N])].
Proof. destruct w as [h [st|] wr]; reflexivity. Qed.

Lemma Error_not_envelope (w : ResponseWriter) (msg : gostring) (code : Z) :
  Written w = [] ->
  ~ Spec.responds_error_envelope (Error_ w msg code).
Proof.
  intros Hw (v & Hv & _). rewrite Error_Written, Hw in Hv. discriminate.
Qed.

(** C9: a request whose method is not POST is answered 405 Method Not
    Allowed, a POST whose body does not decode is answered 400 Bad
    Request; in both cases the extractor is not called: the run leaves no
    event and the answer is the same for every extractor. *)
Theorem early_rejections_skip_extractor
    (W : World) (extract : gostring -> Eff (gostring * option error))
    (r : Request) :
  (Method r <> MethodPost ->
   Server.serve W extract r
   = (Error_ newResponseWriter (str "Method not allowed")
        StatusMethodNotAllowed, [])
   /\ Status (value (Server.serve W extract r)) = Some 405%Z
   /\ trace (Server.serve W extract r) = [])
  /\ (forall e,
         Method r = MethodPost -> json_Decode W (ReqBody r) = Fail e ->
         Server.serve W extract r
         = (Error_ newResponseWriter (str "Invalid JSON") StatusBadRequest, [])
         /\ Status (value (Server.serve W extract r)) = Some 400%Z
         /\ trace (Server.serve W extract r) = []).
Proof.
  split.
  - intros H. rewrite (serve_wrong_method W extract r H). now repeat split.
  - intros e Hm Hd. rewrite (serve_bad_body W extract r e Hm Hd).
    now repeat split.
Qed.

Lemma early_rejections_skip_extractor_witness :
  Method Samples.get_request <> MethodPost
  /\ Status (value (Server.serve
                      (Samples.site 200 Samples.long_text Samples.titled_page)
                      (ReadabilityScraper.ExtractTextFromURL
                         (Samples.site 200 Samples.long_text
                            Samples.titled_page))
                      Samples.get_request)) = Some 405%Z.
Proof.
  assert (H : Method Samples.get_request <> MethodPost) by discriminate.
  split; [exact H|].
  exact (proj1 (proj2 (proj1 (early_rejections_skip_extractor
                                (Samples.site 200 Samples.long_text
                                   Samples.titled_page)
                                (ReadabilityScraper.ExtractTextFromURL
                                   (Samples.site 200 Samples.long_text
                                      Samples.titled_page))
                                Samples.get_request) H))).
Defined.

(** C3, as written: a url whose scheme is not http or https is rejected
    with InvalidInput before any fetch is attempted. It fails on
    [ftp://example.com]: the handler hands the url to the extractor, which
    calls [Get] on it, and the transport's refusal is answered as a
    scraping failure in plain text. *)
Lemma ftp_url_reaches_extractor :
  ~ Spec.rejects_before_fetch
      (Samples.site 200 Samples.long_text Samples.titled_page)
      (ReadabilityScraper.ExtractTextFromURL
         (Samples.site 200 Samples.long_text Samples.titled_page))
      (Samples.post "ftp://example.com").
Proof.
  intros H.
  destruct (H {| URL := str "ftp://example.com" |}) as (Henv & Hfetch & _).
  - split; reflexivity.
  - reflexivity.
  - clear Henv. vm_compute in Hfetch. discriminate.
Qed.

(** C3, amended: whatever the scheme of the url, a submission that
    decodes is handed unvalidated to [ExtractTextFromURL], whose first
    action is the GET of that url; when the GET fails the answer is 500
    with the plain text [Scraping failed: ] and the transport's error;
    no job id is issued. *)
Theorem submission_url_is_not_validated
    (W : World) (r : Request) (req : scrapeRequest) :
  Spec.decodes W r req ->
  (exists rest,
      trace (Server.serve W (ReadabilityScraper.ExtractTextFromURL W) r)
      = EvExtract (URL req) :: EvGet ReadabilityScraper.client (URL req) :: rest)
  /\ (exists rest,
         trace (Server.serve W (DomScraper.ExtractTextFromURL W) r)
         = EvExtract (URL req) :: EvGet DefaultClient (URL req) :: rest)
  /\ (forall e,
         client_Get W ReadabilityScraper.client (URL req) = Fail e ->
         value (Server.serve W (ReadabilityScraper.ExtractTextFromURL W) r)
         = Error_ newResponseWriter (str "Scraping failed: " ++ Error e)
             StatusInternalServerError)
  /\ (forall extract, ~ Spec.carries_job_id (value (Server.serve W extract r))).
Proof.
  intros Hdec. repeat split.
  - rewrite (serve_trace _ _ _ _ Hdec).
    destruct (readability_starts_with_get W (URL req)) as [rest ->].
    now exists rest.
  - rewrite (serve_trace _ _ _ _ Hdec).
    destruct (dom_starts_with_get W (URL req)) as [rest ->].
    now exists rest.
  - intros e He.
    rewrite (serve_scrape_error W _ r req [] e Hdec); [reflexivity|].
    now rewrite (readability_transport_error _ _ _ He).
  - intros extract (v & Hv & Hjob).
    destruct (value (extract (URL req))) as [c [e|]] eqn:Hx.
    + rewrite (serve_scrape_error _ _ _ _ _ _ Hdec Hx) in Hv. discriminate.
    + rewrite (serve_success _ _ _ _ _ Hdec Hx) in Hv.
      cbn in Hv. injection Hv as <-. discriminate.
Qed.

Lemma submission_url_is_not_validated_witness :
  Spec.decodes (Samples.site 200 Samples.long_text Samples.titled_page)
    (Samples.post "ftp://example.com") {| URL := str "ftp://example.com" |}
  /\ value (Server.serve
              (Samples.site 200 Samples.long_text Samples.titled_page)
              (ReadabilityScraper.ExtractTextFromURL
                 (Samples.site 200 Samples.long_text Samples.titled_page))
              (Samples.post "ftp://example.com"))
     = Error_ newResponseWriter
         (str "Scraping failed: unsupported protocol scheme")
         StatusInternalServerError.
Proof.
  assert (H : Spec.decodes
                (Samples.site 200 Samples.long_text Samples.titled_page)
                (Samples.post "ftp://example.com")
                {| URL := str "ftp://example.com" |}) by (split; reflexivity).
  split; [exact H|].
  destruct (submission_url_is_not_validated _ _ _ H) as (_ & _ & Hf & _).
  exact (Hf (errors_New (str "unsupported protocol scheme")) eq_refl).
Defined.

(** C4, as written: a valid submission is acknowledged with a job id and
    a processing status, without extracting. It fails on a POST of
    [https://example.com]: the handler runs the extraction and answers
    with its text. *)
Lemma submission_runs_extraction :
  ~ Spec.submission_is_nonblocking
      (Samples.site 200 Samples.long_text Samples.titled_page)
      (ReadabilityScraper.ExtractTextFromURL
         (Samples.site 200 Samples.long_text Samples.titled_page))
      (Samples.post "https://example.com").
Proof.
  intros H.
  destruct (H {| URL := str "https://example.com" |}) as (_ & Hex & _).
  - split; reflexivity.
  - reflexivity.
  - vm_compute in Hex. discriminate.
Qed.

(** C4, amended: for a submission that decodes and whose extraction
    succeeds, the handler runs the extraction before it answers; the
    answer is 200 with the JSON object [{content: <extracted text>}], it
    carries no job id and no processing status. *)
Theorem submission_answers_with_content
    (W : World) (extract : gostring -> Eff (gostring * option error))
    (r : Request) (req : scrapeRequest) (content : gostring) :
  Spec.decodes W r req ->
  value (extract (URL req)) = (content, None) ->
  let run := Server.serve W extract r in
  Status (value run) = Some StatusOK
  /\ Written (value run) = [Json (JObject [(str "content", JString content)])]
  /\ header_Get (str "Content-Type") (Header (value run))
     = Some (str "application/json")
  /\ trace run = EvExtract (URL req) :: trace (extract (URL req))
  /\ ~ Spec.acknowledges_job (value run).
Proof.
  intros Hdec Hx. cbv zeta. rewrite (serve_success _ _ _ _ _ Hdec Hx).
  repeat split.
  intros (v & Hv & Hjob & _). cbn in Hv. injection Hv as <-. discriminate.
Qed.

Lemma submission_answers_with_content_witness :
  Spec.decodes (Samples.site 200 Samples.long_text Samples.titled_page)
    (Samples.post "https://example.com") {| URL := str "https://example.com" |}
  /\ Written (value (Server.serve
                       (Samples.site 200 Samples.long_text Samples.titled_page)
                       (ReadabilityScraper.ExtractTextFromURL
                          (Samples.site 200 Samples.long_text
                             Samples.titled_page))
                       (Samples.post "https://example.com")))
     = [Json (JObject [(str "content", JString Samples.long_text)])].
Proof.
  assert (H : Spec.decodes
                (Samples.site 200 Samples.long_text Samples.titled_page)
                (Samples.post "https://example.com")
                {| URL := str "https://example.com" |}) by (split; reflexivity).
  split; [exact H|].
  exact (proj1 (proj2 (submission_answers_with_content
                         (Samples.site 200 Samples.long_text Samples.titled_page)
                         (ReadabilityScraper.ExtractTextFromURL
                            (Samples.site 200 Samples.long_text
                               Samples.titled_page))
                         (Samples.post "https://example.com")
                         {| URL := str "https://example.com" |}
                         Samples.long_text H eq_refl))).
Defined.

(** C5, as written: every failing request is answered with the JSON
    object [{success:false, error:{code, message, details}}]. It fails on
    a GET request: the answer is the plain text [Method not allowed]. *)
Lemma failure_is_plain_text :
  ~ Spec.failures_are_error_envelopes
      (Samples.site 200 Samples.long_text Samples.titled_page)
      (ReadabilityScraper.ExtractTextFromURL
         (Samples.site 200 Samples.long_text Samples.titled_page))
      Samples.get_request.
Proof.
  intros H. destruct H as (v & Hv & _); [discriminate|].
  vm_compute in Hv. discriminate.
Qed.

(** C5, amended: every failing request is answered through
    [http.Error], in plain text: a method other than POST gets 405 and
    [Method not allowed], a body that does not decode gets 400 and
    [Invalid JSON], an extractor error gets 500 and [Scraping failed: ]
    with the error's message; the content type is text/plain and the
    body is never a JSON error object. These three causes are the only
    ones: a response whose status is not 200 has one of them. *)
Theorem failures_are_http_errors
    (W : World) (extract : gostring -> Eff (gostring * option error))
    (r : Request) :
  let w := value (Server.serve W extract r) in
  (Method r <> MethodPost ->
   w = Error_ newResponseWriter (str "Method not allowed")
         StatusMethodNotAllowed
   /\ Status w = Some 405%Z
   /\ Written w = [Text (str "Method not allowed" ++ [10%N])])
  /\ (forall e,
         Method r = MethodPost -> json_Decode W (ReqBody r) = Fail e ->
         w = Error_ newResponseWriter (str "Invalid JSON") StatusBadRequest
         /\ Status w = Some 400%Z
         /\ Written w = [Text (str "Invalid JSON" ++ [10%N])])
  /\ (forall req c e,
         Spec.decodes W r req -> value (extract (URL req)) = (c, Some e) ->
         w = Error_ newResponseWriter (str "Scraping failed: " ++ Error e)
               StatusInternalServerError
         /\ Status w = Some 500%Z
         /\ Written w = [Text ((str "Scraping failed: " ++ Error e) ++ [10%N])])
  /\ (Method r <> MethodPost
      \/ (Method r = MethodPost /\ exists e, json_Decode W (ReqBody r) = Fail e)
      \/ (exists req c e,
             Spec.decodes W r req /\ value (extract (URL req)) = (c, Some e)) ->
      Spec.request_fails w
      /\ header_Get (str "Content-Type") (Header w)
         = Some (str "text/plain; charset=utf-8")
      /\ (exists msg, Written w = [Text msg])
      /\ ~ Spec.responds_error_envelope w)
  /\ (Spec.request_fails w ->
      Method r <> MethodPost
      \/ (Method r = MethodPost /\ exists e, json_Decode W (ReqBody r) = Fail e)
      \/ (exists req c e,
             Spec.decodes W r req /\ value (extract (URL req)) = (c, Some e))).
Proof.
  cbv zeta.
  assert (H405 : Method r <> MethodPost ->
            value (Server.serve W extract r)
            = Error_ newResponseWriter (str "Method not allowed")
                StatusMethodNotAllowed).
  { intros H. now rewrite (serve_wrong_method W extract r H). }
  assert (H400 : forall e,
            Method r = MethodPost -> json_Decode W (ReqBody r) = Fail e ->
            value (Server.serve W extract r)
            = Error_ newResponseWriter (str "Invalid JSON") StatusBadRequest).
  { intros e Hm Hd. now rewrite (serve_bad_body W extract r e Hm Hd). }
  assert (H500 : forall req c e,
            Spec.decodes W r req -> value (extract (URL req)) = (c, Some e) ->
            value (Server.serve W extract r)
            = Error_ newResponseWriter (str "Scraping failed: " ++ Error e)
                StatusInternalServerError).
  { intros req c e Hdec Hx.
    now rewrite (serve_scrape_error W extract r req c e Hdec Hx). }
  split; [|split; [|split; [|split]]].
  - intros H. rewrite (H405 H). now repeat split.
  - intros e Hm Hd. rewrite (H400 e Hm Hd). now repeat split.
  - intros req c e Hdec Hx. rewrite (H500 req c e Hdec Hx). now repeat split.
  - intros [H | [(Hm & e & Hd) | (req & c & e & Hdec & Hx)]].
    + rewrite (H405 H). repeat split; try discriminate.
      * now eexists.
      * now apply Error_not_envelope.
    + rewrite (H400 e Hm Hd). repeat split; try discriminate.
      * now eexists.
      * now apply Error_not_envelope.
    + rewrite (H500 req c e Hdec Hx). repeat split; try discriminate.
      * now eexists.
      * now apply Error_not_envelope.
  - intros Hfail.
    destruct (string_eqb (Method r) MethodPost) eqn:Hm.
    + apply string_eqb_eq in Hm.
      destruct (json_Decode W (ReqBody r)) as [req|e] eqn:Hd.
      * assert (Hdec : Spec.decodes W r req) by (split; assumption).
        destruct (value (extract (URL req))) as [c [e|]] eqn:Hx.
        -- right. right. now exists req, c, e.
        -- exfalso. apply Hfail.
           now rewrite (serve_success W extract r req c Hdec Hx).
      * right. left. split; [exact Hm | now exists e].
    + left. intros E. apply string_eqb_eq in E. congruence.
Qed.

Lemma failures_are_http_errors_witness :
  Method Samples.broken_post = MethodPost
  /\ json_Decode (Samples.site 200 Samples.long_text Samples.titled_page)
       (ReqBody Samples.broken_post)
     = Fail (errors_New (str "invalid character"))
  /\ Status (value (Server.serve
                      (Samples.site 200 Samples.long_text Samples.titled_page)
                      (ReadabilityScraper.ExtractTextFromURL
                         (Samples.site 200 Samples.long_text
                            Samples.titled_page))
                      Samples.broken_post)) = Some 400%Z
  /\ Written (value (Server.serve
                       (Samples.site 200 Samples.long_text Samples.titled_page)
                       (ReadabilityScraper.ExtractTextFromURL
                          (Samples.site 200 Samples.long_text
                             Samples.titled_page))
                       Samples.broken_post))
     = [Text (str "Invalid JSON" ++ [10%N])].
Proof.
  split; [reflexivity|]. split; [reflexivity|].
  exact (proj2 (proj1 (proj2 (failures_are_http_errors
                                (Samples.site 200 Samples.long_text
                                   Samples.titled_page)
                                (ReadabilityScraper.ExtractTextFromURL
                                   (Samples.site 200 Samples.long_text
                                      Samples.titled_page))
                                Samples.broken_post))
                        (errors_New (str "invalid character"))
                        eq_refl eq_refl)).
Defined.

(* ===================================================================== *)
(** ** Further properties of the scrapers                                 *)
(* ===================================================================== *)

Section ScraperOutcomes.

Variable W : World.
Variable u : gostring.

Lemma dom_trace :
  trace (DomScraper.ExtractTextFromURL W u)
  = match client_Get W DefaultClient u with
    | Ok _ => [EvGet DefaultClient u; EvClose u]
    | Fail _ => [EvGet DefaultClient u]
    end.
Proof.
  unfold DomScraper.ExtractTextFromURL.
  destruct (client_Get W DefaultClient u) as [resp|e]; [|reflexivity].
  now destruct (negb (StatusCode resp =? StatusOK)%Z).
Qed.

(** The value of the readability scraper, path by path. *)
Lemma readability_value :
  value (ReadabilityScraper.ExtractTextFromURL W u)
  = match client_Get W ReadabilityScraper.client u with
    | Fail err => ([], Some err)
    | Ok resp =>
        if negb (StatusCode resp =? StatusOK)%Z
        then ([], Some (errors_New (str "failed to fetch the page")))
        else match url_Parse W u with
             | Fail _ => ([], Some (errors_New (str "failed to parse URL")))
             | Ok parsedURL =>
                 match readability_FromReader W (Body resp) parsedURL with
                 | Fail err => ([], Some err)
                 | Ok article =>
                     if (len (TextContent article) <? 100)%Z
                     then ([], Some (errors_New
                                       (str "extract failed: content too short")))
                     else (TextContent article, None)
                 end
             end
    end.
Proof.
  unfold ReadabilityScraper.ExtractTextFromURL.
  destruct (client_Get W ReadabilityScraper.client u) as [resp|e];
    [|reflexivity].
  destruct (negb (StatusCode resp =? StatusOK)%Z); [reflexivity|].
  destruct (url_Parse W u) as [pu|]; [|reflexivity].
  destruct (readability_FromReader W (Body resp) pu) as [a|]; [|reflexivity].
  now destruct (len (TextContent a) <? 100)%Z.
Qed.

Lemma dom_value :
  value (DomScraper.ExtractTextFromURL W u)
  = match client_Get W DefaultClient u with
    | Fail err => ([], Some err)
    | Ok resp =>
        if negb (StatusCode resp =? StatusOK)%Z
        then ([], Some (errors_New (str "failed to fetch page")))
        else DomScraper.extractTextFromHTML W (Body resp)
    end.
Proof.
  unfold DomScraper.ExtractTextFromURL.
  destruct (client_Get W DefaultClient u) as [resp|e]; [|reflexivity].
  destruct (negb (StatusCode resp =? StatusOK)%Z); [reflexivity|].
  now destruct (DomScraper.extractTextFromHTML W (Body resp)).
Qed.

Lemma status_ok_eqb (resp : Response) :
  negb (StatusCode resp =? StatusOK)%Z = false <-> StatusCode resp = StatusOK.
Proof.
  rewrite negb_false_iff. apply Z.eqb_eq.
Qed.

(** Success of the readability scraper: what it requires, and what is
    enough for it. *)
Lemma readability_success_inv (c : gostring) :
  value (ReadabilityScraper.ExtractTextFromURL W u) = (c, None) ->
  exists resp parsedURL article,
    client_Get W ReadabilityScraper.client u = Ok resp
    /\ StatusCode resp = StatusOK
    /\ url_Parse W u = Ok parsedURL
    /\ readability_FromReader W (Body resp) parsedURL = Ok article
    /\ (100 <= len (TextContent article))%Z
    /\ c = TextContent article.
Proof.
  rewrite readability_value.
  destruct (client_Get W ReadabilityScraper.client u) as [resp|e];
    [|discriminate].
  destruct (negb (StatusCode resp =? StatusOK)%Z) eqn:Hs; [discriminate|].
  destruct (url_Parse W u) as [pu|]; [|discriminate].
  destruct (readability_FromReader W (Body resp) pu) as [a|] eqn:Hr;
    [|discriminate].
  destruct (len (TextContent a) <? 100)%Z eqn:Hl; [discriminate|].
  intros E. injection E as <-.
  exists resp, pu, a. apply status_ok_eqb in Hs. apply Z.ltb_ge in Hl.
  repeat split; assumption.
Qed.

Lemma readability_success_intro
    (resp : Response) (parsedURL : ParsedURL) (article : Article) :
  client_Get W ReadabilityScraper.client u = Ok resp ->
  StatusCode resp = StatusOK ->
  url_Parse W u = Ok parsedURL ->
  readability_FromReader W (Body resp) parsedURL = Ok article ->
  (100 <= len (TextContent article))%Z ->
  value (ReadabilityScraper.ExtractTextFromURL W u)
  = (TextContent article, None).
Proof.
  intros Hg Hs Hu Hr Hl. rewrite readability_value, Hg.
  apply status_ok_eqb in Hs. rewrite Hs, Hu, Hr.
  apply Z.ltb_ge in Hl. now rewrite Hl.
Qed.

(** Success of the DOM scraper: what it requires, and what is enough
    for it. *)
Lemma dom_success_inv (c : gostring) :
  value (DomScraper.ExtractTextFromURL W u) = (c, None) ->
  exists resp doc,
    client_Get W DefaultClient u = Ok resp
    /\ StatusCode resp = StatusOK
    /\ html_Parse W (Body resp) = Ok doc
    /\ c = DomScraper.extractText doc.
Proof.
  rewrite dom_value. unfold DomScraper.extractTextFromHTML.
  destruct (client_Get W DefaultClient u) as [resp|e]; [|discriminate].
  destruct (negb (StatusCode resp =? StatusOK)%Z) eqn:Hs; [discriminate|].
  destruct (html_Parse W (Body resp)) as [doc|] eqn:Hp; [|discriminate].
  intros E. injection E as <-.
  exists resp, doc. apply status_ok_eqb in Hs. now repeat split.
Qed.

Lemma dom_success_intro (resp : Response) (doc : Node) :
  client_Get W DefaultClient u = Ok resp ->
  StatusCode resp = StatusOK ->
  html_Parse W (Body resp) = Ok doc ->
  value (DomScraper.ExtractTextFromURL W u)
  = (DomScraper.extractText doc, None).
Proof.
  intros Hg Hs Hp. rewrite dom_value, Hg.
  apply status_ok_eqb in Hs. rewrite Hs.
  unfold DomScraper.extractTextFromHTML. now rewrite Hp.
Qed.

End ScraperOutcomes.

(** X1: either scraper issues exactly one GET, on the url it is given and
    as its first action; the response body is closed, as the last
    action, exactly when the GET returned a response, on every path. *)
Theorem scraper_gets_once_and_closes (W : World) (u : gostring) :
  trace (ReadabilityScraper.ExtractTextFromURL W u)
  = EvGet ReadabilityScraper.client u
    :: match client_Get W ReadabilityScraper.client u with
       | Ok _ => [EvClose u]
       | Fail _ => []
       end
  /\ trace (DomScraper.ExtractTextFromURL W u)
     = EvGet DefaultClient u
       :: match client_Get W DefaultClient u with
          | Ok _ => [EvClose u]
          | Fail _ => []
          end.
Proof.
  rewrite readability_trace, dom_trace.
  split.
  - now destruct (client_Get W ReadabilityScraper.client u).
  - now destruct (client_Get W DefaultClient u).
Qed.

(** X2: whenever either scraper returns an error, the content it returns
    with it is the empty string. *)
Theorem error_comes_without_content (W : World) (u : gostring) (e : error) :
  (snd (value (ReadabilityScraper.ExtractTextFromURL W u)) = Some e ->
   fst (value (ReadabilityScraper.ExtractTextFromURL W u)) = [])
  /\ (snd (value (DomScraper.ExtractTextFromURL W u)) = Some e ->
      fst (value (DomScraper.ExtractTextFromURL W u)) = []).
Proof.
  split.
  - rewrite readability_value.
    destruct (client_Get W ReadabilityScraper.client u) as [resp|];
      [|reflexivity].
    destruct (negb (StatusCode resp =? StatusOK)%Z); [reflexivity|].
    destruct (url_Parse W u) as [pu|]; [|reflexivity].
    destruct (readability_FromReader W (Body resp) pu) as [a|]; [|reflexivity].
    destruct (len (TextContent a) <? 100)%Z; [reflexivity | discriminate].
  - rewrite dom_value. unfold DomScraper.extractTextFromHTML.
    destruct (client_Get W DefaultClient u) as [resp|]; [|reflexivity].
    destruct (negb (StatusCode resp =? StatusOK)%Z); [reflexivity|].
    destruct (html_Parse W (Body resp)); [discriminate | reflexivity].
Qed.

Lemma error_comes_without_content_witness :
  snd (value (ReadabilityScraper.ExtractTextFromURL
                (Samples.site 200 Samples.short_text Samples.titled_page)
                (str "https://example.com")))
  = Some (errors_New (str "extract failed: content too short"))
  /\ fst (value (ReadabilityScraper.ExtractTextFromURL
                   (Samples.site 200 Samples.short_text Samples.titled_page)
                   (str "https://example.com"))) = [].
Proof.
  split; [reflexivity|].
  exact (proj1 (error_comes_without_content
                  (Samples.site 200 Samples.short_text Samples.titled_page)
                  (str "https://example.com")
                  (errors_New (str "extract failed: content too short")))
           eq_refl).
Defined.

(** X3: the readability scraper succeeds exactly when the GET returns
    200 OK, the url parses, readability extracts an article and its text
    is at least 100 bytes long; the content is then that text,
    unchanged. *)
Theorem readability_succeeds_iff (W : World) (u c : gostring) :
  value (ReadabilityScraper.ExtractTextFromURL W u) = (c, None) <->
  exists resp parsedURL article,
    client_Get W ReadabilityScraper.client u = Ok resp
    /\ StatusCode resp = StatusOK
    /\ url_Parse W u = Ok parsedURL
    /\ readability_FromReader W (Body resp) parsedURL = Ok article
    /\ (100 <= len (TextContent article))%Z
    /\ c = TextContent article.
Proof.
  split.
  - apply readability_success_inv.
  - intros (resp & pu & a & Hg & Hs & Hu & Hr & Hl & ->).
    now apply (readability_success_intro W u resp pu a).
Qed.

Lemma readability_succeeds_iff_witness :
  (exists resp parsedURL article,
      client_Get (Samples.site 200 Samples.long_text Samples.titled_page)
        ReadabilityScraper.client (str "https://example.com") = Ok resp
      /\ StatusCode resp = StatusOK
      /\ url_Parse (Samples.site 200 Samples.long_text Samples.titled_page)
           (str "https://example.com") = Ok parsedURL
      /\ readability_FromReader
           (Samples.site 200 Samples.long_text Samples.titled_page)
           (Body resp) parsedURL = Ok article
      /\ (100 <= len (TextContent article))%Z
      /\ Samples.long_text = TextContent article)
  /\ value (ReadabilityScraper.ExtractTextFromURL
              (Samples.site 200 Samples.long_text Samples.titled_page)
              (str "https://example.com"))
     = (Samples.long_text, None).
Proof.
  assert (H : exists resp parsedURL article,
      client_Get (Samples.site 200 Samples.long_text Samples.titled_page)
        ReadabilityScraper.client (str "https://example.com") = Ok resp
      /\ StatusCode resp = StatusOK
      /\ url_Parse (Samples.site 200 Samples.long_text Samples.titled_page)
           (str "https://example.com") = Ok parsedURL
      /\ readability_FromReader
           (Samples.site 200 Samples.long_text Samples.titled_page)
           (Body resp) parsedURL = Ok article
      /\ (100 <= len (TextContent article))%Z
      /\ Samples.long_text = TextContent article).
  { exists {| StatusCode := 200; Body := Samples.long_text |},
           {| Raw := str "https://example.com" |},
           {| TextContent := Samples.long_text |}.
    repeat split. vm_compute. discriminate. }
  split; [exact H|].
  exact (proj2 (readability_succeeds_iff
                  (Samples.site 200 Samples.long_text Samples.titled_page)
                  (str "https://example.com") Samples.long_text) H).
Defined.

(** X4: the DOM scraper succeeds exactly when the GET returns 200 OK and
    the body parses; the content is then the text extracted from the
    parsed document, however short. *)
Theorem dom_succeeds_iff (W : World) (u c : gostring) :
  value (DomScraper.ExtractTextFromURL W u) = (c, None) <->
  exists resp doc,
    client_Get W DefaultClient u = Ok resp
    /\ StatusCode resp = StatusOK
    /\ html_Parse W (Body resp) = Ok doc
    /\ c = DomScraper.extractText doc.
Proof.
  split.
  - apply dom_success_inv.
  - intros (resp & doc & Hg & Hs & Hp & ->).
    now apply (dom_success_intro W u resp doc).
Qed.

Lemma dom_succeeds_iff_witness :
  (exists resp doc,
      client_Get (Samples.site 200 [] Samples.titled_page)
        DefaultClient (str "https://example.com") = Ok resp
      /\ StatusCode resp = StatusOK
      /\ html_Parse (Samples.site 200 [] Samples.titled_page) (Body resp)
         = Ok doc
      /\ str "Hello World" = DomScraper.extractText doc)
  /\ value (DomScraper.ExtractTextFromURL
              (Samples.site 200 [] Samples.titled_page)
              (str "https://example.com"))
     = (str "Hello World", None).
Proof.
  assert (H : exists resp doc,
      client_Get (Samples.site 200 [] Samples.titled_page)
        DefaultClient (str "https://example.com") = Ok resp
      /\ StatusCode resp = StatusOK
      /\ html_Parse (Samples.site 200 [] Samples.titled_page) (Body resp)
         = Ok doc
      /\ str "Hello World" = DomScraper.extractText doc).
  { exists {| StatusCode := 200; Body := [] |}, Samples.titled_page.
    repeat split. }
  split; [exact H|].
  exact (proj2 (dom_succeeds_iff
                  (Samples.site 200 [] Samples.titled_page)
                  (str "https://example.com") (str "Hello World")) H).
Defined.




(** X6: an error of the readability scraper is the transport's error or
    readability's error, passed on unchanged, or one of three fixed
    messages; the error of [url.Parse] is dropped for the fixed message
    [failed to parse URL]. *)
Theorem readability_error_origin (W : World) (u : gostring) (e : error) :
  snd (value (ReadabilityScraper.ExtractTextFromURL W u)) = Some e ->
  client_Get W ReadabilityScraper.client u = Fail e
  \/ exists resp,
       client_Get W ReadabilityScraper.client u = Ok resp
       /\ ((StatusCode resp <> StatusOK
            /\ e = errors_New (str "failed to fetch the page"))
           \/ (StatusCode resp = StatusOK
               /\ ((exists e', url_Parse W u = Fail e'
                               /\ e = errors_New (str "failed to parse URL"))
                   \/ exists parsedURL,
                        url_Parse W u = Ok parsedURL
                        /\ (readability_FromReader W (Body resp) parsedURL
                            = Fail e
                            \/ exists article,
                                 readability_FromReader W (Body resp) parsedURL
                                 = Ok article
                                 /\ (len (TextContent article) < 100)%Z
                                 /\ e = errors_New
                                          (str "extract failed: content too short"))))).
Proof.
  rewrite readability_value.
  destruct (client_Get W ReadabilityScraper.client u) as [resp|e0].
  - intros H. right. exists resp. split; [reflexivity|].
    destruct (negb (StatusCode resp =? StatusOK)%Z) eqn:Hs.
    + left. apply negb_true_iff, Z.eqb_neq in Hs.
      cbn in H. injection H as <-. now split.
    + right. apply status_ok_eqb in Hs. split; [exact Hs|].
      destruct (url_Parse W u) as [pu|e'].
      * right. exists pu. split; [reflexivity|].
        destruct (readability_FromReader W (Body resp) pu) as [a|e1].
        -- right. exists a. split; [reflexivity|].
           destruct (len (TextContent a) <? 100)%Z eqn:Hl; [|discriminate].
           apply Z.ltb_lt in Hl. cbn in H. injection H as <-. now split.
        -- left. cbn in H. now injection H as <-.
      * left. exists e'. cbn in H. injection H as <-. now split.
  - intros H. left. cbn in H. now injection H as <-.
Qed.

Lemma readability_error_origin_witness :
  snd (value (ReadabilityScraper.ExtractTextFromURL
                (Samples.site 200 Samples.long_text Samples.titled_page)
                (str "ftp://example.com")))
  = Some (errors_New (str "unsupported protocol scheme"))
  /\ (client_Get (Samples.site 200 Samples.long_text Samples.titled_page)
        ReadabilityScraper.client (str "ftp://example.com")
      = Fail (errors_New (str "unsupported protocol scheme"))
      \/ exists resp,
           client_Get (Samples.site 200 Samples.long_text Samples.titled_page)
             ReadabilityScraper.client (str "ftp://example.com") = Ok resp).
Proof.
  split; [reflexivity|].
  destruct (readability_error_origin
              (Samples.site 200 Samples.long_text Samples.titled_page)
              (str "ftp://example.com")
              (errors_New (str "unsupported protocol scheme")) eq_refl)
    as [H | (resp & H & _)].
  - left. exact H.
  - right. exists resp. exact H.
Defined.

(* ===================================================================== *)
(** ** Further properties of the handler                                  *)
(* ===================================================================== *)

Section HandlerOutcomes.

Variable W : World.
Variable extract : gostring -> Eff (gostring * option error).
Variable r : Request.

(** The four ways a request ends. *)
Lemma serve_cases :
  (Method r <> MethodPost
   /\ Server.serve W extract r
      = (Error_ newResponseWriter (str "Method not allowed")
           StatusMethodNotAllowed, []))
  \/ (Method r = MethodPost
      /\ (exists e, json_Decode W (ReqBody r) = Fail e)
      /\ Server.serve W extract r
         = (Error_ newResponseWriter (str "Invalid JSON") StatusBadRequest, []))
  \/ (exists req c e,
         Spec.decodes W r req
         /\ value (extract (URL req)) = (c, Some e)
         /\ Server.serve W extract r
            = (Error_ newResponseWriter (str "Scraping failed: " ++ Error e)
                 StatusInternalServerError,
               EvExtract (URL req) :: trace (extract (URL req))))
  \/ (exists req c,
         Spec.decodes W r req
         /\ value (extract (URL req)) = (c, None)
         /\ Server.serve W extract r
            = (Encode (SetHeader newResponseWriter
                         "Content-Type" "application/json")
                 {| Content := c |},
               EvExtract (URL req) :: trace (extract (URL req)))).
Proof.
  destruct (string_eqb (Method r) MethodPost) eqn:Hm.
  - apply string_eqb_eq in Hm.
    destruct (json_Decode W (ReqBody r)) as [req|e] eqn:Hd.
    + assert (Hdec : Spec.decodes W r req) by (split; assumption).
      destruct (value (extract (URL req))) as [c [e|]] eqn:Hx.
      * right. right. left. exists req, c, e.
        repeat split; try assumption.
        apply (serve_scrape_error _ _ _ _ _ _ Hdec Hx).
      * right. right. right. exists req, c.
        repeat split; try assumption.
        apply (serve_success _ _ _ _ _ Hdec Hx).
    + right. left. split; [exact Hm|]. split; [now exists e|].
      apply (serve_bad_body _ _ _ _ Hm Hd).
  - left. assert (Hne : Method r <> MethodPost).
    { intros E. apply string_eqb_eq in E. congruence. }
    split; [exact Hne|]. now apply serve_wrong_method.
Qed.

End HandlerOutcomes.

(** X7: every request gets exactly one payload and a status among 200,
    400, 405 and 500; the payload is JSON exactly when the status is 200,
    and the Content-Type header says so: application/json with 200,
    text/plain otherwise. *)
Theorem response_is_classified
    (W : World) (extract : gostring -> Eff (gostring * option error))
    (r : Request) :
  let w := value (Server.serve W extract r) in
  exists p code,
    Written w = [p]
    /\ Status w = Some code
    /\ (code = 200 \/ code = 400 \/ code = 405 \/ code = 500)%Z
    /\ (code = 200%Z <-> exists v, p = Json v)
    /\ header_Get (str "Content-Type") (Header w)
       = Some (if (code =? 200)%Z then str "application/json"
               else str "text/plain; charset=utf-8").
Proof.
  cbv zeta.
  destruct (serve_cases W extract r)
    as [(_ & ->) | [(_ & _ & ->) | [(req & c & e & _ & _ & ->)
                                   | (req & c & _ & _ & ->)]]];
    cbn [value fst].
  - exists (Text (str "Method not allowed" ++ [10%N])), 405%Z.
    repeat split; try (now right; right; left); try discriminate.
    intros (v & Hv). discriminate.
  - exists (Text (str "Invalid JSON" ++ [10%N])), 400%Z.
    repeat split; try (now right; left); try discriminate.
    intros (v & Hv). discriminate.
  - exists (Text ((str "Scraping failed: " ++ Error e) ++ [10%N])), 500%Z.
    repeat split; try (now right; right; right); try discriminate.
    intros (v & Hv). discriminate.
  - exists (Json (JObject [(str "content", JString c)])), 200%Z.
    repeat split; try (now left). intros _. now eexists.
Qed.

(** X8: the handler calls the extractor at most once, and only on the
    url of the decoded request: its trace is empty, or it is the call on
    that url followed by what the extractor does there. *)
Theorem extractor_called_once_on_request_url
    (W : World) (extract : gostring -> Eff (gostring * option error))
    (r : Request) :
  trace (Server.serve W extract r) = []
  \/ exists req,
       Spec.decodes W r req
       /\ trace (Server.serve W extract r)
          = EvExtract (URL req) :: trace (extract (URL req)).
Proof.
  destruct (serve_cases W extract r)
    as [(_ & ->) | [(_ & _ & ->) | [(req & c & e & Hd & _ & ->)
                                   | (req & c & Hd & _ & ->)]]].
  - now left.
  - now left.
  - right. now exists req.
  - right. now exists req.
Qed.

Lemma readability_serve_trace (W : World) (r : Request) :
  trace (Server.serve W (ReadabilityScraper.ExtractTextFromURL W) r) = []
  \/ exists req,
       Spec.decodes W r req
       /\ exists closes,
            trace (Server.serve W (ReadabilityScraper.ExtractTextFromURL W) r)
            = EvExtract (URL req)
              :: EvGet ReadabilityScraper.client (URL req) :: closes
            /\ (closes = [] \/ closes = [EvClose (URL req)]).
Proof.
  destruct (serve_cases W (ReadabilityScraper.ExtractTextFromURL W) r)
    as [(_ & ->) | [(_ & _ & ->) | [(req & c & e & Hd & _ & ->)
                                   | (req & c & Hd & _ & ->)]]];
    [now left | now left | |];
    right; exists req; (split; [exact Hd|]);
    cbn [trace snd]; rewrite readability_trace;
    destruct (client_Get W ReadabilityScraper.client (URL req));
    eexists; (split; [reflexivity|]); auto.
Qed.

Lemma dom_serve_trace (W : World) (r : Request) :
  trace (Server.serve W (DomScraper.ExtractTextFromURL W) r) = []
  \/ exists req,
       Spec.decodes W r req
       /\ exists closes,
            trace (Server.serve W (DomScraper.ExtractTextFromURL W) r)
            = EvExtract (URL req) :: EvGet DefaultClient (URL req) :: closes
            /\ (closes = [] \/ closes = [EvClose (URL req)]).
Proof.
  destruct (serve_cases W (DomScraper.ExtractTextFromURL W) r)
    as [(_ & ->) | [(_ & _ & ->) | [(req & c & e & Hd & _ & ->)
                                   | (req & c & Hd & _ & ->)]]];
    [now left | now left | |];
    right; exists req; (split; [exact Hd|]);
    cbn [trace snd]; rewrite dom_trace;
    destruct (client_Get W DefaultClient (URL req));
    eexists; (split; [reflexivity|]); auto.
Qed.

(** X9: with either scraper behind it, the handler calls the client's
    [Get] at most once per request, and only with the url of the decoded
    request as its argument. What the client does inside that call, such
    as following redirects, lies outside the repository and is not
    covered. *)
Theorem handler_fetches_only_request_url (W : World) (r : Request) (ev : Event) :
  (In ev (trace (Server.serve W (ReadabilityScraper.ExtractTextFromURL W) r)) ->
   is_fetch ev = true ->
   exists req,
     Spec.decodes W r req /\ ev = EvGet ReadabilityScraper.client (URL req))
  /\ (In ev (trace (Server.serve W (DomScraper.ExtractTextFromURL W) r)) ->
      is_fetch ev = true ->
      exists req, Spec.decodes W r req /\ ev = EvGet DefaultClient (URL req))
  /\ length (filter is_fetch
               (trace (Server.serve W
                         (ReadabilityScraper.ExtractTextFromURL W) r))) <= 1
  /\ length (filter is_fetch
               (trace (Server.serve W (DomScraper.ExtractTextFromURL W) r))) <= 1.
Proof.
  destruct (readability_serve_trace W r)
    as [Hr | (req & Hd & cl & Hr & Hcl)];
  destruct (dom_serve_trace W r)
    as [Hdm | (req' & Hd' & cl' & Hdm & Hcl')];
  rewrite Hr, Hdm; repeat split;
    try (intros []; fail);
    try (destruct Hcl as [-> | ->]; cbn; lia);
    try (destruct Hcl' as [-> | ->]; cbn; lia);
    try (cbn; lia).
  all: intros Hin Hf.
  all: try (exists req; split; [exact Hd|];
            destruct Hcl as [-> | ->]; cbn in Hin;
            repeat (destruct Hin as [<- | Hin]; try discriminate Hf;
                    try reflexivity);
            now destruct Hin).
  all: exists req'; split; [exact Hd'|];
       destruct Hcl' as [-> | ->]; cbn in Hin;
       repeat (destruct Hin as [<- | Hin]; try discriminate Hf;
               try reflexivity);
       now destruct Hin.
Qed.

Lemma handler_fetches_only_request_url_witness :
  In (EvGet ReadabilityScraper.client (str "https://example.com"))
    (trace (Server.serve
              (Samples.site 200 Samples.long_text Samples.titled_page)
              (ReadabilityScraper.ExtractTextFromURL
                 (Samples.site 200 Samples.long_text Samples.titled_page))
              (Samples.post "https://example.com")))
  /\ exists req,
       Spec.decodes (Samples.site 200 Samples.long_text Samples.titled_page)
         (Samples.post "https://example.com") req
       /\ EvGet ReadabilityScraper.client (str "https://example.com")
          = EvGet ReadabilityScraper.client (URL req).
Proof.
  assert (H : In (EvGet ReadabilityScraper.client (str "https://example.com"))
                (trace (Server.serve
                          (Samples.site 200 Samples.long_text
                             Samples.titled_page)
                          (ReadabilityScraper.ExtractTextFromURL
                             (Samples.site 200 Samples.long_text
                                Samples.titled_page))
                          (Samples.post "https://example.com"))))
    by (right; left; reflexivity).
  split; [exact H|].
  exact (proj1 (handler_fetches_only_request_url
                  (Samples.site 200 Samples.long_text Samples.titled_page)
                  (Samples.post "https://example.com")
                  (EvGet ReadabilityScraper.client (str "https://example.com")))
           H eq_refl).
Defined.

Lemma ok_response_content
    (W : World) (extract : gostring -> Eff (gostring * option error))
    (r : Request) :
  Status (value (Server.serve W extract r)) = Some StatusOK ->
  exists req content,
    Spec.decodes W r req
    /\ value (extract (URL req)) = (content, None)
    /\ Written (value (Server.serve W extract r))
       = [Json (JObject [(str "content", JString content)])].
Proof.
  destruct (serve_cases W extract r)
    as [(_ & ->) | [(_ & _ & ->) | [(req & c & e & _ & _ & ->)
                                   | (req & c & Hd & Hx & ->)]]];
    try discriminate.
  intros _. now exists req, c.
Qed.

(** X10: with the readability scraper, a response with status 200
    carries, as [content], a text of at least 100 bytes: the text
    readability extracted from the page at the request's url. *)
Theorem ok_response_has_long_content (W : World) (r : Request) :
  Status (value (Server.serve W (ReadabilityScraper.ExtractTextFromURL W) r))
  = Some StatusOK ->
  exists content,
    Written (value (Server.serve W
                      (ReadabilityScraper.ExtractTextFromURL W) r))
    = [Json (JObject [(str "content", JString content)])]
    /\ (100 <= len content)%Z
    /\ content <> [].
Proof.
  intros H. destruct (ok_response_content _ _ _ H) as (req & c & _ & Hx & Hw).
  exists c. split; [exact Hw|].
  apply readability_success_inv in Hx.
  destruct Hx as (resp & pu & a & _ & _ & _ & _ & Hl & ->).
  split; [exact Hl|]. intros E. rewrite E in Hl. cbn in Hl. lia.
Qed.

Lemma ok_response_has_long_content_witness :
  Status (value (Server.serve
                   (Samples.site 200 Samples.long_text Samples.titled_page)
                   (ReadabilityScraper.ExtractTextFromURL
                      (Samples.site 200 Samples.long_text Samples.titled_page))
                   (Samples.post "https://example.com")))
  = Some StatusOK
  /\ exists content,
       Written (value (Server.serve
                         (Samples.site 200 Samples.long_text
                            Samples.titled_page)
                         (ReadabilityScraper.ExtractTextFromURL
                            (Samples.site 200 Samples.long_text
                               Samples.titled_page))
                         (Samples.post "https://example.com")))
       = [Json (JObject [(str "content", JString content)])]
       /\ (100 <= len content)%Z
       /\ content <> [].
Proof.
  split; [reflexivity|].
  exact (ok_response_has_long_content
           (Samples.site 200 Samples.long_text Samples.titled_page)
           (Samples.post "https://example.com") eq_refl).
Defined.



(* ===================================================================== *)
(** ** Further properties of the text extraction                          *)
(* ===================================================================== *)

Section Extraction.

Import DomScraper.

Lemma TrimLeft_nil_iff (s : gostring) :
  TrimLeftFunc IsSpace s = [] <-> Spec.whitespace_only s = true.
Proof.
  split; [|apply TrimLeft_whitespace_only].
  induction s as [|c s IH]; cbn; [reflexivity|].
  destruct (IsSpace c); [exact IH | discriminate].
Qed.

Lemma whitespace_only_rev (s : gostring) :
  Spec.whitespace_only (rev s) = Spec.whitespace_only s.
Proof.
  unfold Spec.whitespace_only. induction s as [|c s IH]; [reflexivity|].
  cbn [rev forallb]. rewrite forallb_app, IH. cbn [forallb].
  rewrite andb_true_r. apply andb_comm.
Qed.

Lemma TrimSpace_nil_iff (s : gostring) :
  TrimSpace s = [] <-> Spec.whitespace_only s = true.
Proof.
  split; [|apply TrimSpace_whitespace_only].
  unfold TrimSpace, TrimFunc, TrimRightFunc. intros H.
  apply (f_equal (@rev rune)) in H. rewrite rev_involutive in H.
  cbn [rev] in H. apply TrimLeft_nil_iff in H.
  rewrite whitespace_only_rev in H.
  pose proof (TrimLeft_lead s) as Hl.
  apply TrimLeft_nil_iff.
  destruct (TrimLeftFunc IsSpace s) as [|c t]; [reflexivity|].
  cbn in H, Hl. rewrite Hl in H. discriminate.
Qed.

Lemma In_TrimLeft (r : rune) (s : gostring) :
  In r (TrimLeftFunc IsSpace s) -> In r s.
Proof.
  induction s as [|c s IH]; cbn; [tauto|].
  destruct (IsSpace c); [right; auto | tauto].
Qed.

Lemma In_TrimSpace (r : rune) (s : gostring) :
  In r (TrimSpace s) -> In r s.
Proof.
  unfold TrimSpace, TrimFunc, TrimRightFunc. intros H.
  apply in_rev, In_TrimLeft in H. apply in_rev in H.
  now apply In_TrimLeft.
Qed.

Lemma In_Join (r : rune) (ts : list gostring) (sep : gostring) :
  In r (Join ts sep) -> In r sep \/ exists t, In t ts /\ In r t.
Proof.
  induction ts as [|t ts IH]; [intros []|].
  destruct ts as [|t' ts].
  - cbn. intros H. right. exists t. now split; [left|].
  - change (Join (t :: t' :: ts) sep) with (t ++ sep ++ Join (t' :: ts) sep).
    intros H. apply in_app_or in H. destruct H as [H|H].
    + right. exists t. now split; [left|].
    + apply in_app_or in H. destruct H as [H|H]; [now left|].
      destruct (IH H) as [Hs | (x & Hx & Hr)]; [now left|].
      right. exists x. split; [now right | exact Hr].
Qed.

Lemma Join_nil (ts : list gostring) (sep : gostring) :
  Forall Spec.tidy ts -> Join ts sep = [] -> ts = [].
Proof.
  intros H E. destruct ts as [|t ts]; [reflexivity|].
  destruct (Join_tidy (t :: ts) sep) as (Hne & _); trivial; [discriminate|].
  contradiction.
Qed.

Lemma filter_nil_iff {A} (f : A -> bool) (l : list A) :
  filter f l = [] <-> forallb (fun x => negb (f x)) l = true.
Proof.
  induction l as [|a l IH]; cbn; [tauto|].
  destruct (f a); cbn; [split; discriminate | exact IH].
Qed.

Lemma no_piece_kept (ds : list gostring) :
  forallb Spec.whitespace_only ds = true ->
  filter nonempty (map TrimSpace ds) = [].
Proof.
  intros H. rewrite forallb_forall in H.
  apply filter_nil_iff, forallb_forall. intros t Ht.
  apply in_map_iff in Ht. destruct Ht as (d & <- & Hd).
  now rewrite (TrimSpace_whitespace_only _ (H d Hd)).
Qed.

Lemma extractText_blank (doc : Node) :
  forallb Spec.whitespace_only (visible_texts None doc) = true ->
  extractText doc = [].
Proof.
  intros H. now rewrite extractText_join, (no_piece_kept _ H).
Qed.

End Extraction.

(** X12: the extracted text is empty exactly when every text node the
    traversal lets through is empty or whitespace only; a document
    without such text gives the empty string, not an error. *)
Theorem extractText_empty_iff (doc : Node) :
  DomScraper.extractText doc = [] <->
  forallb Spec.whitespace_only (DomScraper.visible_texts None doc) = true.
Proof.
  split; [|apply extractText_blank].
  rewrite extractText_join. intros E.
  apply Join_nil in E; [|apply trimmed_tidy].
  apply filter_nil_iff in E. rewrite forallb_forall in E.
  apply forallb_forall. intros d Hd.
  apply TrimSpace_nil_iff.
  specialize (E (TrimSpace d) (in_map _ _ _ Hd)).
  apply negb_true_iff in E.
  destruct (TrimSpace d) as [|c t] eqn:Ht; [reflexivity|].
  rewrite (proj2 (nonempty_iff (c :: t))) in E; discriminate.
Qed.

Lemma extractText_empty_iff_witness :
  forallb Spec.whitespace_only
    (DomScraper.visible_texts None
       (document [elem "body" [text "  "; elem "script" [text "x"]]]))
  = true
  /\ DomScraper.extractText
       (document [elem "body" [text "  "; elem "script" [text "x"]]]) = [].
Proof.
  split; [reflexivity|].
  exact (proj2 (extractText_empty_iff
                  (document [elem "body" [text "  "; elem "script" [text "x"]]]))
           eq_refl).
Defined.

(** X13: extraction is idempotent: a text node that holds an extracted
    text is extracted to that same text. *)
Theorem extractText_idempotent (doc : Node) :
  DomScraper.extractText (mkNode TextNode (DomScraper.extractText doc) [])
  = DomScraper.extractText doc.
Proof.
  set (out := DomScraper.extractText doc).
  rewrite (extractText_pieces (mkNode TextNode out [])).
  cbn [DomScraper.visible_texts Type_ Data Children flat_map NodeType_eqb
         DomScraper.isIgnorable negb andb app map concat].
  rewrite app_nil_r. unfold DomScraper.piece.
  assert (Hfix : TrimSpace out = out).
  { apply TrimSpace_fix; [apply TrimSpace_lead | apply TrimSpace_trail]. }
  rewrite Hfix.
  destruct (DomScraper.nonempty out) eqn:Hne.
  - apply TrimSpace_tidy_space. rewrite <- Hfix. apply TrimSpace_tidy.
    now rewrite Hfix.
  - destruct out as [|c t]; [reflexivity|].
    rewrite (proj2 (nonempty_iff (c :: t))) in Hne; discriminate.
Qed.

(** X14: the extraction invents nothing: every character of the output
    is the separating space or occurs in a text node the traversal lets
    through. *)
Theorem output_comes_from_text_nodes (doc : Node) (r : rune) :
  In r (DomScraper.extractText doc) ->
  r = 32%N
  \/ exists d, In d (DomScraper.visible_texts None doc) /\ In r d.
Proof.
  rewrite extractText_join. intros H.
  apply In_Join in H. destruct H as [H | (t & Ht & Hr)].
  - left. cbn in H. destruct H as [H|[]]. now symmetry.
  - right. apply filter_In in Ht. destruct Ht as [Ht _].
    apply in_map_iff in Ht. destruct Ht as (d & <- & Hd).
    exists d. split; [exact Hd | now apply In_TrimSpace].
Qed.

Lemma output_comes_from_text_nodes_witness :
  In 72%N (DomScraper.extractText Samples.titled_page)
  /\ (72%N = 32%N
      \/ exists d,
           In d (DomScraper.visible_texts None Samples.titled_page)
           /\ In 72%N d).
Proof.
  assert (H : In 72%N (DomScraper.extractText Samples.titled_page))
    by (left; reflexivity).
  split; [exact H|].
  exact (output_comes_from_text_nodes Samples.titled_page 72%N H).
Defined.

(** X15: [traverse] only appends to the builder: what was written before
    stays in front, and what a subtree adds does not depend on it. *)
Theorem traverse_appends (p : option Node) (n : Node) (b : Builder) :
  DomScraper.traverse p n b = b ++ DomScraper.traverse p n newBuilder.
Proof.
  rewrite (traverse_spec n p b), (traverse_spec n p newBuilder).
  reflexivity.
Qed.

(** X16: an element [script], [style], [head] or [noscript] whose
    children are all leaves writes nothing: the text directly inside it
    never reaches the output. *)
Theorem ignorable_element_with_leaves_is_silent
    (a : Node) (p : option Node) (b : Builder) :
  DomScraper.isIgnorable (Some a) = true ->
  forallb Spec.leaf (Children a) = true ->
  DomScraper.traverse p a b = b
  /\ DomScraper.visible_texts p a = [].
Proof.
  intros Ha Hl. split.
  - apply direct_text_children_skipped; [exact Ha|].
    apply Forall_forall. intros c Hc.
    rewrite forallb_forall in Hl. specialize (Hl c Hc).
    unfold Spec.leaf in Hl. now destruct (Children c).
  - pose proof (non_content_not_text _ Ha) as Hty.
    destruct a as [ty d cs]. cbn [DomScraper.visible_texts Type_ Children] in *.
    rewrite Hty. cbn [andb app].
    now apply leaves_under_ignorable.
Qed.

Lemma ignorable_element_with_leaves_is_silent_witness :
  DomScraper.isIgnorable (Some (elem "script" [text "var x = 1;"])) = true
  /\ forallb Spec.leaf (Children (elem "script" [text "var x = 1;"])) = true
  /\ DomScraper.traverse None (elem "script" [text "var x = 1;"]) (str "seen")
     = str "seen".
Proof.
  split; [reflexivity|]. split; [reflexivity|].
  exact (proj1 (ignorable_element_with_leaves_is_silent
                  (elem "script" [text "var x = 1;"]) None (str "seen")
                  eq_refl eq_refl)).
Defined.

(** X17: on a document in which every [script], [style], [head] and
    [noscript] element has only leaves below it, the extracted text is
    the trimmed, non-empty text of the nodes outside those elements,
    in document order, joined by one space. *)
Theorem flat_document_text (doc : Node) :
  Spec.flat_non_content doc = true ->
  DomScraper.extractText doc
  = Join (filter DomScraper.nonempty (map TrimSpace (Spec.content_texts doc)))
      (str " ").
Proof.
  intros H. rewrite extractText_join.
  now rewrite (visible_texts_flat doc None eq_refl H).
Qed.

Lemma flat_document_text_witness :
  Spec.flat_non_content Samples.spaced_page = true
  /\ DomScraper.extractText Samples.spaced_page
     = Join (filter DomScraper.nonempty
               (map TrimSpace (Spec.content_texts Samples.spaced_page)))
         (str " ").
Proof.
  split; [reflexivity|].
  exact (flat_document_text Samples.spaced_page eq_refl).
Defined.

(** X18: the DOM scraper has no minimum length: when the page answers
    200 and parses to a document without visible text, the handler
    answers 200 with an empty [content]. *)
Theorem empty_page_is_served
    (W : World) (r : Request) (req : scrapeRequest)
    (resp : Response) (doc : Node) :
  Spec.decodes W r req ->
  client_Get W DefaultClient (URL req) = Ok resp ->
  StatusCode resp = StatusOK ->
  html_Parse W (Body resp) = Ok doc ->
  forallb Spec.whitespace_only (DomScraper.visible_texts None doc) = true ->
  Status (value (Server.serve W (DomScraper.ExtractTextFromURL W) r))
  = Some StatusOK
  /\ Written (value (Server.serve W (DomScraper.ExtractTextFromURL W) r))
     = [Json (JObject [(str "content", JString [])])].
Proof.
  intros Hdec Hget Hs Hp Hws.
  assert (Hx : value (DomScraper.ExtractTextFromURL W (URL req)) = ([], None)).
  { rewrite (dom_success_intro W (URL req) resp doc Hget Hs Hp).
    now rewrite (extractText_blank doc Hws). }
  rewrite (serve_success _ _ _ _ _ Hdec Hx). now split.
Qed.

Lemma empty_page_is_served_witness :
  Spec.decodes (Samples.site 200 [] (document []))
    (Samples.post "https://example.com") {| URL := str "https://example.com" |}
  /\ Written (value (Server.serve (Samples.site 200 [] (document []))
                       (DomScraper.ExtractTextFromURL
                          (Samples.site 200 [] (document [])))
                       (Samples.post "https://example.com")))
     = [Json (JObject [(str "content", JString [])])].
Proof.
  assert (H : Spec.decodes (Samples.site 200 [] (document []))
                (Samples.post "https://example.com")
                {| URL := str "https://example.com" |}) by (split; reflexivity).
  split; [exact H|].
  exact (proj2 (empty_page_is_served
                  (Samples.site 200 [] (document []))
                  (Samples.post "https://example.com")
                  {| URL := str "https://example.com" |}
                  {| StatusCode := 200; Body := [] |} (document [])
                  H eq_refl eq_refl eq_refl eq_refl)).
Defined.
